(** * opennmt/models/model.py: the model base class

    A shallow embedding of [learning_rate_decay_fn] and of the methods of
    [Model] (word counters, training-op builder, example filter, input
    pipeline), and the properties of them that the specification states.

    Conventions.
    - A Python call that may raise returns [except A]: [Ok a] for a
      returned value, [Raise e] for a raised exception.
    - Learning rates are float tensors in the source; they are modelled by
      rationals [Q] (exact arithmetic, no NaN), and [tf.maximum] by [Qmax].
    - Integer tensors are modelled by [Z]; the global step is an [int64]
      tensor and its subtraction wraps ([wrap64]).
    - A Python [dict] of tensors is a [gmap string _]. *)

From Stdlib Require Import ZArith QArith Qround Qminmax Lia.
From stdpp Require Import gmap strings list fin_maps.

#[local] Open Scope Z_scope.

(** ** Exceptions *)

Inductive exn : Type :=
| ValueError (msg : string)
| KeyError (key : string)
| TypeError (callable : string)
| ZeroDivisionError
| InvalidArgumentError (msg : string)
| CalleeError (msg : string).

Inductive except (A : Type) : Type :=
| Ok (a : A)
| Raise (e : exn).

Arguments Ok {A} a.
Arguments Raise {A} e.

Definition bind {A B : Type} (m : except A) (k : A -> except B) : except B :=
  match m with
  | Ok a => k a
  | Raise e => Raise e
  end.

Notation "x <- m ;; k" := (bind m (fun x => k))
  (at level 100, m at next level, right associativity).

Definition is_ok {A : Type} (m : except A) : bool :=
  match m with Ok _ => true | Raise _ => false end.

(** [d[key]] on a dict: [KeyError] when the key is missing. *)
Definition getitem {V : Type} (d : gmap string V) (key : string) : except V :=
  match d !! key with
  | Some v => Ok v
  | None => Raise (KeyError key)
  end.

(** ** Machine integers *)

Definition wrap64 (z : Z) : Z := (z + 2 ^ 63) mod 2 ^ 64 - 2 ^ 63.

Definition in_int64 (z : Z) : Prop := - 2 ^ 63 <= z < 2 ^ 63.

(** [tf.maximum] on integer tensors. *)
Definition tf_maximum (a b : Z) : Z := Z.max a b.

(** [tf.minimum] on integer tensors. *)
Definition tf_minimum (a b : Z) : Z := Z.min a b.

(** ** Decay policy *)

(** What a call into code outside this file does: it returns a value, or
    it fails with an exception of its own. *)
Inductive callee_result (A : Type) : Type :=
| Returned (a : A)
| Failed (msg : string).

Arguments Returned {A} a.
Arguments Failed {A} msg.

Definition from_callee {A : Type} (r : callee_result A) : except A :=
  match r with
  | Returned a => Ok a
  | Failed msg => Raise (CalleeError msg)
  end.

(** A decay operation, as found in [tf.train] or [opennmt.utils.decay]:
    called as [op(learning_rate, step, decay_steps, decay_rate,
    staircase=staircase)]. *)
Definition decay_op : Type := Q -> Z -> Z -> Q -> bool -> callee_result Q.

(** [getattr(module, name, None)]: the attribute, or [None]. *)
Definition namespace : Type := string -> option decay_op.

Section Decay.

(** The two modules searched by name: [tf.train] (external) and
    [opennmt.utils.decay]. *)
Variable tf_train : namespace.
Variable decay : namespace.

(** Lines 32-39: the lookup of [decay_type], [tf.train] first. *)
Definition resolve_decay_op (decay_type : string) : except decay_op :=
  let decay_op_name : option decay_op := None in
  let decay_op_name :=
    match decay_op_name with
    | None => tf_train decay_type
    | Some _ => decay_op_name
    end in
  let decay_op_name :=
    match decay_op_name with
    | None => decay decay_type
    | Some _ => decay_op_name
    end in
  match decay_op_name with
  | None => Raise (ValueError ("Unknown decay function: " +:+ decay_type))
  | Some op => Ok op
  end.

(** Lines 31-49: the closure returned by [learning_rate_decay_fn]. *)
Definition decay_fn (decay_type : string) (decay_rate : Q) (decay_steps : Z)
    (staircase : bool) (start_decay_steps : Z) (minimum_learning_rate : Q)
    (learning_rate : Q) (global_step : Z) : except Q :=
  decay_op_name <- resolve_decay_op decay_type ;;
  decayed_learning_rate <-
    from_callee (decay_op_name
      learning_rate
      (tf_maximum (wrap64 (global_step - start_decay_steps)) 0)
      decay_steps
      decay_rate
      staircase) ;;
  let decayed_learning_rate := Qmax decayed_learning_rate minimum_learning_rate in
  Ok decayed_learning_rate.

(** Lines 12-51: builds the closure; nothing is looked up yet. *)
Definition learning_rate_decay_fn (decay_type : string) (decay_rate : Q)
    (decay_steps : Z) (staircase : bool) (start_decay_steps : Z)
    (minimum_learning_rate : Q) : except (Q -> Z -> except Q) :=
  Ok (decay_fn decay_type decay_rate decay_steps staircase
        start_decay_steps minimum_learning_rate).

End Decay.

(** ** Word counter *)

(** The second argument of the methods: [None], a dict of tensors, or a
    bare tensor. *)
Inductive pyobj (V : Type) : Type :=
| PyNone
| PyDict (d : gmap string V)
| PyTensor (v : V).

Arguments PyNone {V}.
Arguments PyDict {V} d.
Arguments PyTensor {V} v.

(** The graph nodes that [_count_words] adds:
    [tf.Variable(initial_value, name, trainable, dtype=tf.int64)] and
    [tf.assign_add(ref, value, name)]. *)
Inductive graph_node : Type :=
| VariableNode (name : string) (initial_value : Z) (trainable : bool)
| AssignAddNode (name : string) (ref : string) (value : Z).

(** [tf.reduce_sum] of an integer tensor, given by its elements. *)
Definition tf_reduce_sum (t : list Z) : Z := fold_right Z.add 0 t.

(** [tf.cast(_, tf.int64)]. *)
Definition tf_cast_int64 (z : Z) : Z := wrap64 z.

(** [tf.variable_scope("words_per_sec")] prefixes the names. *)
Definition words_per_sec (name : string) : string := "words_per_sec/" +:+ name.

(** Lines 70-80; the nodes are returned in creation order. *)
Definition _add_counter (word_count : Z) (name : string) : list graph_node :=
  let word_count := tf_cast_int64 word_count in
  [ VariableNode (words_per_sec (name +:+ "_init")) 0 false;
    AssignAddNode (words_per_sec name) (words_per_sec (name +:+ "_init")) word_count ].

(** Lines 68-89: the nodes added to the graph by one call. *)
Definition _count_words (features : gmap string (list Z))
    (labels : pyobj (list Z)) : list graph_node :=
  let features_length := features !! "length" in
  let labels_length :=
    match labels with
    | PyDict d => d !! "length"
    | PyNone | PyTensor _ => None
    end in
  (match features_length with
   | Some l => _add_counter (tf_reduce_sum l) "features"
   | None => []
   end)
  ++
  (match labels_length with
   | Some l => _add_counter (tf_reduce_sum l) "labels"
   | None => []
   end).

(** Running the counter updates of a step on the variables' values. *)
Definition run_node (store : gmap string Z) (n : graph_node) : gmap string Z :=
  match n with
  | VariableNode name initial_value _ =>
      match store !! name with
      | Some _ => store
      | None => <[name := initial_value]> store
      end
  | AssignAddNode _ ref value =>
      match store !! ref with
      | Some total => <[ref := wrap64 (total + value)]> store
      | None => store
      end
  end.

Definition run_nodes (store : gmap string Z) (ns : list graph_node) : gmap string Z :=
  fold_left run_node ns store.

(** ** Training op *)

(** The [params] dict with its recognised keys; a field is [None] when
    the key is missing.  [decay_type] and [clip_gradients] are nullable. *)
Record params : Type := {
  p_decay_type : option (option string);
  p_decay_rate : option Q;
  p_decay_steps : option Z;
  p_staircase : option bool;
  p_start_decay_steps : option Z;
  p_minimum_learning_rate : option Q;
  p_learning_rate : option Q;
  p_optimizer : option string;
  p_clip_gradients : option (option Q)
}.

(** [params[key]]. *)
Definition param {A : Type} (field : option A) (key : string) : except A :=
  match field with
  | Some v => Ok v
  | None => Raise (KeyError key)
  end.

(** The call [tf.contrib.layers.optimize_loss(loss, global_step,
    learning_rate, optimizer, clip_gradients=..., learning_rate_decay_fn=...,
    summaries=...)] that makes the training op. *)
Record optimize_loss_call : Type := {
  ol_loss : Q;
  ol_learning_rate : Q;
  ol_optimizer : string;
  ol_clip_gradients : option Q;
  ol_learning_rate_decay_fn : option (Q -> Z -> except Q);
  ol_summaries : list string
}.

(** [tf.contrib.layers.optimize_loss] (external): the optimizer runs with
    [learning_rate_decay_fn(learning_rate, global_step)] when a decay
    function is given, and with [learning_rate] otherwise. *)
Definition optimizer_learning_rate (c : optimize_loss_call) (global_step : Z)
    : except Q :=
  match ol_learning_rate_decay_fn c with
  | Some f => f (ol_learning_rate c) global_step
  | None => Ok (ol_learning_rate c)
  end.

Section TrainOp.

Variable tf_train : namespace.
Variable decay : namespace.

(** Lines 96-124. *)
Definition _build_train_op (loss : Q) (p : params) : except optimize_loss_call :=
  decay_type <- param (p_decay_type p) "decay_type" ;;
  decay_fn <-
    match decay_type with
    | Some decay_type =>
        decay_rate <- param (p_decay_rate p) "decay_rate" ;;
        decay_steps <- param (p_decay_steps p) "decay_steps" ;;
        staircase <- param (p_staircase p) "staircase" ;;
        start_decay_steps <- param (p_start_decay_steps p) "start_decay_steps" ;;
        minimum_learning_rate <-
          param (p_minimum_learning_rate p) "minimum_learning_rate" ;;
        f <- learning_rate_decay_fn tf_train decay decay_type decay_rate
               decay_steps staircase start_decay_steps minimum_learning_rate ;;
        Ok (Some f)
    | None => Ok None
    end ;;
  learning_rate <- param (p_learning_rate p) "learning_rate" ;;
  optimizer <- param (p_optimizer p) "optimizer" ;;
  clip_gradients <- param (p_clip_gradients p) "clip_gradients" ;;
  Ok {| ol_loss := loss;
        ol_learning_rate := learning_rate;
        ol_optimizer := optimizer;
        ol_clip_gradients := clip_gradients;
        ol_learning_rate_decay_fn := decay_fn;
        ol_summaries := ["learning_rate"; "loss"; "global_gradient_norm"] |}.

End TrainOp.

(** ** Example filter *)

Definition tf_greater (a b : Z) : bool := b <? a.
Definition tf_less_equal (a b : Z) : bool := a <=? b.

(** [tf.reduce_all] of a list of scalar conditions. *)
Definition tf_reduce_all (cond : list bool) : bool := forallb (fun c => c) cond.

(** Lines 126-147.  An example is the dict of its integer scalar fields. *)
Definition _filter_example (features : gmap string Z) (labels : pyobj Z)
    (maximum_features_length maximum_labels_length : option Z) : bool :=
  let features_length := features !! "length" in
  let labels_length :=
    match labels with
    | PyDict d => d !! "length"
    | PyNone | PyTensor _ => None
    end in
  let cond : list bool := [] in
  let cond :=
    match features_length with
    | Some features_length =>
        let cond := cond ++ [tf_greater features_length 0] in
        match maximum_features_length with
        | Some m => cond ++ [tf_less_equal features_length m]
        | None => cond
        end
    | None => cond
    end in
  let cond :=
    match labels_length with
    | Some labels_length =>
        let cond := cond ++ [tf_greater labels_length 0] in
        match maximum_labels_length with
        | Some m => cond ++ [tf_less_equal labels_length m]
        | None => cond
        end
    | None => cond
    end in
  tf_reduce_all cond.

(** ** Input pipeline *)

(** [tf.estimator.ModeKeys]. *)
Definition TRAIN : string := "train".
Definition EVAL : string := "eval".
Definition PREDICT : string := "infer".

(** A padded-shape spec: per field, dimensions that are [None] when the
    field is padded to the longest of the batch; a pair for zipped data. *)
Inductive padded_shapes : Type :=
| ShapesOf (fields : gmap string (list (option Z)))
| ShapesPair (features labels : padded_shapes).

(** What [reduce_func] makes of a window. *)
Inductive window_op : Type :=
| WindowPaddedBatch (batch_size : Z) (shapes : padded_shapes).

(** The dataset graph built by the [tf.contrib.data] calls. *)
Inductive dataset : Type :=
| FromFile (file : string) (resources : gmap string string)
| Zip (a b : dataset)
| Filter (predicate : gmap string Z -> pyobj Z -> bool) (d : dataset)
| Shuffle (buffer_size : Z) (seed : Z) (d : dataset)
| Repeat (d : dataset)
| PaddedBatch (batch_size : Z) (shapes : padded_shapes) (d : dataset)
| GroupByWindow (key_func : gmap string Z -> pyobj Z -> except Z)
    (reduce_func : Z -> window_op) (window_size : Z) (d : dataset).

(** The abstract methods a subclass supplies. *)
Class Model : Type := {
  name : string;
  _build_features : string -> gmap string string -> dataset * padded_shapes;
  _build_labels : string -> gmap string string -> dataset * padded_shapes
}.

(** Python's [a // b] on integers. *)
Definition py_floordiv (a b : Z) : except Z :=
  if b =? 0 then Raise ZeroDivisionError else Ok (a / b).

(** [a // b] on integer tensors. *)
Definition tf_floordiv (a b : Z) : except Z :=
  if b =? 0 then Raise (InvalidArgumentError "Integer division by zero")
  else Ok (a / b).

(** Lines 219-222: [if maximum_features_length:] is false for [None] and
    for [0]. *)
Definition bucket_width (maximum_features_length : option Z) (num_buckets : Z)
    : except Z :=
  match maximum_features_length with
  | Some m =>
      if m =? 0 then Ok 10
      else py_floordiv (m + num_buckets - 1) num_buckets
  | None => Ok 10
  end.

(** Lines 218-226, with the variables of the enclosing call. *)
Definition key_func (maximum_features_length : option Z) (num_buckets : Z)
    (features : gmap string Z) (labels : pyobj Z) : except Z :=
  bucket_width <- bucket_width maximum_features_length num_buckets ;;
  length <- getitem features "length" ;;
  bucket_id <- tf_floordiv length bucket_width ;;
  let bucket_id := tf_minimum bucket_id num_buckets in
  Ok bucket_id.

(** Lines 228-231. *)
Definition reduce_func (batch_size : Z) (shapes : padded_shapes) (key : Z)
    : window_op :=
  WindowPaddedBatch batch_size shapes.

(** What [_input_fn_impl] leaves: the dataset whose iterator's
    [get_next()] is returned, and the initializers added to the
    [TABLE_INITIALIZERS] collection. *)
Record input_result : Type := {
  next_of : dataset;
  table_initializers : list dataset
}.

Section Input.

Context `{M : Model}.

(** Lines 177-243.  [now] is the reading of [time.time()].  The two
    lambdas take [(features, labels)]: on a dataset that was not zipped
    with labels the call that traces them raises [TypeError]. *)
Definition _input_fn_impl (now : Z) (mode : string)
    (batch_size buffer_size num_buckets : Z) (resources : gmap string string)
    (features_file : string) (labels_file : option string)
    (maximum_features_length maximum_labels_length : option Z)
    : except input_result :=
  let '(features_dataset, features_padded_shapes) :=
    _build_features features_file resources in
  let '(dataset, shapes, zipped) :=
    match labels_file with
    | None => (features_dataset, features_padded_shapes, false)
    | Some labels_file =>
        let '(labels_dataset, labels_padded_shapes) :=
          _build_labels labels_file resources in
        (Zip features_dataset labels_dataset,
         ShapesPair features_padded_shapes labels_padded_shapes,
         true)
    end in
  dataset <-
    (if bool_decide (mode = TRAIN) then
       if zipped then
         let dataset :=
           Filter (fun features labels =>
                     _filter_example features labels
                       maximum_features_length maximum_labels_length)
                  dataset in
         let dataset := Shuffle buffer_size now dataset in
         Ok (Repeat dataset)
       else Raise (TypeError "<lambda>")
     else Ok dataset) ;;
  dataset <-
    (if bool_decide (mode = PREDICT) || (num_buckets <=? 1) then
       Ok (PaddedBatch batch_size shapes dataset)
     else
       if zipped then
         Ok (GroupByWindow (key_func maximum_features_length num_buckets)
               (reduce_func batch_size shapes) batch_size dataset)
       else Raise (TypeError "key_func")) ;;
  Ok {| next_of := dataset; table_initializers := [dataset] |}.

(** Lines 245-288: the check, then the closure over [_input_fn_impl]. *)
Definition input_fn (mode : string) (batch_size buffer_size num_buckets : Z)
    (resources : gmap string string) (features_file : string)
    (labels_file : option string)
    (maximum_features_length maximum_labels_length : option Z)
    : except (Z -> except input_result) :=
  if negb (bool_decide (mode = PREDICT)) && negb (bool_decide (is_Some labels_file))
  then Raise (ValueError "Labels file is required for training and evaluation")
  else
    Ok (fun now =>
          _input_fn_impl now mode batch_size buffer_size num_buckets resources
            features_file labels_file
            maximum_features_length maximum_labels_length).

(** Lines 290-300. *)
Definition format_prediction {A : Type} (prediction : A) : A := prediction.

End Input.

(** ** The specification's formulas *)

(** [ceil(a / b)] and [floor(a / b)], over the rationals. *)
Definition ceil_div (a b : Z) : Z := Qceiling (inject_Z a / inject_Z b).
Definition floor_div (a b : Z) : Z := Qfloor (inject_Z a / inject_Z b).

(** Bucket width as specified: [ceil(maximum_features_length /
    num_buckets)] if the bound is set, else 10. *)
Definition spec_bucket_width (maximum_features_length : option Z)
    (num_buckets : Z) : Z :=
  match maximum_features_length with
  | Some m => ceil_div m num_buckets
  | None => 10
  end.

(** Bucket id as specified: [min(floor(length / bucket_width),
    num_buckets)]. *)
Definition spec_bucket_id (length bucket_width num_buckets : Z) : Z :=
  Z.min (floor_div length bucket_width) num_buckets.

(** The bucketing rule as specified, for one configuration and example. *)
Definition spec_bucketing (maximum_features_length : option Z)
    (num_buckets : Z) (features : gmap string Z) (labels : pyobj Z) : Prop :=
  forall length, features !! "length" = Some length ->
    bucket_width maximum_features_length num_buckets
      = Ok (spec_bucket_width maximum_features_length num_buckets) /\
    key_func maximum_features_length num_buckets features labels
      = Ok (spec_bucket_id length
              (spec_bucket_width maximum_features_length num_buckets)
              num_buckets).

(** Bucket width with a bound of zero read as unset. *)
Definition spec_bucket_width_nonzero (maximum_features_length : option Z)
    (num_buckets : Z) : Z :=
  match maximum_features_length with
  | Some m => if m =? 0 then 10 else ceil_div m num_buckets
  | None => 10
  end.

(** One modality's condition: [length > 0], and [length <= maximum] if
    the bound is set; true when there is no length. *)
Definition spec_length_ok (length : option Z) (maximum : option Z) : bool :=
  match length with
  | Some l =>
      (0 <? l) && match maximum with Some m => l <=? m | None => true end
  | None => true
  end.

(** The length a [labels] argument carries, if it is a mapping with one. *)
Definition labels_length {V : Type} (labels : pyobj V) : option V :=
  match labels with
  | PyDict d => d !! "length"
  | PyNone | PyTensor _ => None
  end.

(** The filter as specified: the conjunction of the applicable conditions. *)
Definition spec_filter (features : gmap string Z) (labels : pyobj Z)
    (maximum_features_length maximum_labels_length : option Z) : bool :=
  spec_length_ok (features !! "length") maximum_features_length
  && spec_length_ok (labels_length labels) maximum_labels_length.

(** The rate of the resolved strategy at a given effective step, clamped
    from below. *)
Definition rate_at_effective_step (tf_train decay : namespace)
    (decay_type : string) (decay_rate : Q) (decay_steps : Z) (staircase : bool)
    (minimum_learning_rate : Q) (base_learning_rate : Q) (effective_step : Z)
    : except Q :=
  op <- resolve_decay_op tf_train decay decay_type ;;
  result <- from_callee
    (op base_learning_rate effective_step decay_steps decay_rate staircase) ;;
  Ok (Qmax result minimum_learning_rate).

(** A [labels] argument that is a mapping carrying [length]. *)
Definition carries_length {V : Type} (labels : pyobj V) : Prop :=
  exists d, labels = PyDict d /\ is_Some (d !! "length").

(** A counter variable is created, or updated, by a list of nodes. *)
Definition creates_counter (nodes : list graph_node) (variable : string) : Prop :=
  exists initial_value trainable,
    In (VariableNode variable initial_value trainable) nodes.

Definition updates_counter (nodes : list graph_node) (variable : string) : Prop :=
  exists op_name value, In (AssignAddNode op_name variable value) nodes.

(** Failing fast, as specified for non-positive length bounds. *)
Definition nonpositive (bound : option Z) : Prop :=
  exists m, bound = Some m /\ m <= 0.

Definition spec_rejects_nonpositive_bounds `{M : Model} (mode : string)
    (batch_size buffer_size num_buckets : Z) (resources : gmap string string)
    (features_file : string) (labels_file : option string) : Prop :=
  forall maximum_features_length maximum_labels_length,
    nonpositive maximum_features_length \/ nonpositive maximum_labels_length ->
    exists e,
      input_fn mode batch_size buffer_size num_buckets resources features_file
        labels_file maximum_features_length maximum_labels_length = Raise e.

(** No decay for a null or absent [decay_type], as specified. *)
Definition spec_no_decay_when_null_or_absent (tf_train decay : namespace)
    (loss : Q) (p : params) : Prop :=
  forall learning_rate optimizer clip_gradients,
    p_decay_type p = Some None \/ p_decay_type p = None ->
    p_learning_rate p = Some learning_rate ->
    p_optimizer p = Some optimizer ->
    p_clip_gradients p = Some clip_gradients ->
    exists call,
      _build_train_op tf_train decay loss p = Ok call
      /\ ol_learning_rate_decay_fn call = None
      /\ forall global_step,
           optimizer_learning_rate call global_step = Ok learning_rate.

(** ** Fixtures for the examples *)

(** [exponential_decay] in its staircase form:
    [learning_rate * decay_rate ^ (step // decay_steps)]. *)
Definition staircase_exponential_decay : decay_op :=
  fun learning_rate step decay_steps decay_rate _ =>
    if decay_steps =? 0 then Failed "division by zero"
    else Returned (learning_rate * decay_rate ^ (step / decay_steps))%Q.

(** A custom strategy that keeps the rate. *)
Definition constant_decay : decay_op :=
  fun learning_rate _ _ _ _ => Returned learning_rate.

Definition example_tf_train : namespace :=
  fun attr =>
    if String.eqb attr "exponential_decay" then Some staircase_exponential_decay
    else None.

Definition example_decay : namespace :=
  fun attr =>
    if String.eqb attr "constant_decay" then Some constant_decay
    else if String.eqb attr "exponential_decay" then Some constant_decay
    else None.

(** A subclass whose builders read one dataset per file. *)
#[local] Instance example_model : Model := {|
  name := "example";
  _build_features file resources :=
    (FromFile file resources, ShapesOf {[ "ids" := [None]; "length" := [] ]});
  _build_labels file resources :=
    (FromFile file resources, ShapesOf {[ "ids" := [None]; "length" := [] ]})
|}.

Definition example_params : params := {|
  p_decay_type := Some None;
  p_decay_rate := None;
  p_decay_steps := None;
  p_staircase := None;
  p_start_decay_steps := None;
  p_minimum_learning_rate := None;
  p_learning_rate := Some (1 # 10)%Q;
  p_optimizer := Some "Adam";
  p_clip_gradients := Some None
|}.

(** ** Steps, pipelines and key sets *)

(** The counter updates of successive steps, one batch of features and
    labels per step. *)
Definition run_batches (store : gmap string Z)
    (batches : list (gmap string (list Z) * pyobj (list Z))) : gmap string Z :=
  fold_left (fun store batch => run_nodes store (_count_words batch.1 batch.2))
    batches store.

(** The word counts that the batches carry for each modality. *)
Definition features_word_counts
    (batches : list (gmap string (list Z) * pyobj (list Z))) : list Z :=
  omap (fun batch => tf_reduce_sum <$> batch.1 !! "length") batches.

Definition labels_word_counts
    (batches : list (gmap string (list Z) * pyobj (list Z))) : list Z :=
  omap (fun batch => tf_reduce_sum <$> labels_length batch.2) batches.

(** The value of a counter after steps that added [counts] to it. *)
Definition counter_after (counts : list Z) : option Z :=
  match counts with
  | [] => None
  | _ :: _ => Some (wrap64 (tf_reduce_sum counts))
  end.

(** The last stage of a pipeline is [group_by_window]. *)
Definition is_bucketed (d : dataset) : bool :=
  match d with
  | GroupByWindow _ _ _ _ => true
  | _ => false
  end.

(** The keys that [_build_train_op] reads: four always, five more when
    [decay_type] is not null. *)
Definition required_keys_present (p : params) : Prop :=
  is_Some (p_decay_type p)
  /\ is_Some (p_learning_rate p)
  /\ is_Some (p_optimizer p)
  /\ is_Some (p_clip_gradients p)
  /\ (forall decay_type, p_decay_type p = Some (Some decay_type) ->
        is_Some (p_decay_rate p)
        /\ is_Some (p_decay_steps p)
        /\ is_Some (p_staircase p)
        /\ is_Some (p_start_decay_steps p)
        /\ is_Some (p_minimum_learning_rate p)).

(** A length bound that admits whatever another admits. *)
Definition looser_bound (bound bound' : option Z) : Prop :=
  match bound, bound' with
  | _, None => True
  | Some m, Some m' => m <= m'
  | None, Some _ => False
  end.

(** A bound that is unset or positive. *)
Definition unset_or_positive (bound : option Z) : Prop :=
  forall m, bound = Some m -> 0 < m.

(** Fixtures: two training batches and a schedule with decay. *)
Definition example_batches : list (gmap string (list Z) * pyobj (list Z)) :=
  [ ({[ "length" := [3; 5] ]}, PyDict {[ "length" := [4; 6] ]});
    ({[ "ids" := [1; 2] ]}, PyNone);
    ({[ "length" := [7] ]}, PyDict {[ "length" := [2] ]}) ].

Definition example_decay_params : params := {|
  p_decay_type := Some (Some "exponential_decay");
  p_decay_rate := Some (1 # 2)%Q;
  p_decay_steps := Some 100;
  p_staircase := Some true;
  p_start_decay_steps := Some 1000;
  p_minimum_learning_rate := Some (1 # 100)%Q;
  p_learning_rate := Some 1%Q;
  p_optimizer := Some "Adam";
  p_clip_gradients := Some None
|}.

(** Fixture: [example_params] without the [decay_type] key. *)
Definition example_params_without_decay_type : params := {|
  p_decay_type := None;
  p_decay_rate := None;
  p_decay_steps := None;
  p_staircase := None;
  p_start_decay_steps := None;
  p_minimum_learning_rate := None;
  p_learning_rate := Some (1 # 10)%Q;
  p_optimizer := Some "Adam";
  p_clip_gradients := Some None
|}.

(** * Properties *)

(** ** Arithmetic *)

Lemma wrap64_in_range (z : Z) : in_int64 z -> wrap64 z = z.
Proof.
  unfold in_int64, wrap64. intros Hz.
  rewrite Z.mod_small; lia.
Qed.

Lemma wrap64_idempotent (z : Z) : wrap64 (wrap64 z) = wrap64 z.
Proof.
  apply wrap64_in_range. unfold in_int64, wrap64.
  pose proof (Z.mod_pos_bound (z + 2 ^ 63) (2 ^ 64)). lia.
Qed.

Lemma floor_div_Zdiv (a b : Z) : b <> 0 -> floor_div a b = a / b.
Proof.
  intros Hb. unfold floor_div, Qdiv, Qmult, Qinv, inject_Z.
  destruct b as [|p|p]; [congruence| |]; simpl.
  - now rewrite Z.mul_1_r.
  - rewrite <- (Z.div_opp_opp a (Z.neg p)) by lia.
    f_equal; lia.
Qed.

Lemma ceil_div_Zdiv (a b : Z) : 0 < b -> ceil_div a b = (a + b - 1) / b.
Proof.
  intros Hb. unfold ceil_div, Qceiling, Qdiv, Qmult, Qinv, Qopp, inject_Z.
  destruct b as [|p|p]; try lia; simpl.
  rewrite Z.mul_1_r, ?Pos.mul_1_l.
  pose proof (Z.div_mod (- a) (Z.pos p) ltac:(lia)) as Hdm.
  pose proof (Z.mod_pos_bound (- a) (Z.pos p) ltac:(lia)) as Hr.
  apply Z.div_unique with (r := Z.pos p - 1 - (- a) mod Z.pos p); [lia|].
  lia.
Qed.

(** ** Carried lengths *)

Lemma labels_length_carries {V : Type} (labels : pyobj V) :
  is_Some (labels_length labels) <-> carries_length labels.
Proof.
  unfold carries_length. split.
  - destruct labels as [|d|v]; simpl; intros Hl;
      try (destruct Hl; discriminate). now exists d.
  - intros [d [-> Hd]]. exact Hd.
Qed.

(** ** Decay policy *)

Section DecayFacts.

Variable tf_train : namespace.
Variable decay : namespace.

Lemma resolve_decay_op_cases (decay_type : string) :
  resolve_decay_op tf_train decay decay_type =
    match tf_train decay_type with
    | Some op => Ok op
    | None =>
        match decay decay_type with
        | Some op => Ok op
        | None => Raise (ValueError ("Unknown decay function: " +:+ decay_type))
        end
    end.
Proof.
  unfold resolve_decay_op.
  destruct (tf_train decay_type); [reflexivity|].
  destruct (decay decay_type); reflexivity.
Qed.

Lemma decay_fn_resolved (decay_type : string) (decay_rate : Q)
    (decay_steps : Z) (staircase : bool) (start_decay_steps : Z)
    (minimum_learning_rate learning_rate : Q) (global_step : Z) (op : decay_op) :
  resolve_decay_op tf_train decay decay_type = Ok op ->
  decay_fn tf_train decay decay_type decay_rate decay_steps staircase
    start_decay_steps minimum_learning_rate learning_rate global_step =
  match op learning_rate
          (tf_maximum (wrap64 (global_step - start_decay_steps)) 0)
          decay_steps decay_rate staircase with
  | Returned v => Ok (Qmax v minimum_learning_rate)
  | Failed msg => Raise (CalleeError msg)
  end.
Proof.
  intros Hop. unfold decay_fn. rewrite Hop. simpl.
  destruct (op _ _ _ _ _); reflexivity.
Qed.

Lemma decay_fn_unresolved (decay_type : string) (decay_rate : Q)
    (decay_steps : Z) (staircase : bool) (start_decay_steps : Z)
    (minimum_learning_rate learning_rate : Q) (global_step : Z) (e : exn) :
  resolve_decay_op tf_train decay decay_type = Raise e ->
  decay_fn tf_train decay decay_type decay_rate decay_steps staircase
    start_decay_steps minimum_learning_rate learning_rate global_step = Raise e.
Proof. intros Hop. unfold decay_fn. now rewrite Hop. Qed.

(** C2: the returned decay function applies the resolved strategy at
    [max(global_step - start_decay_steps, 0)] (the [int64] subtraction
    not overflowing); so before [start_decay_steps] the decayed rate is
    the rate at effective step 0. *)
Theorem decay_fn_effective_step (decay_type : string) (decay_rate : Q)
    (decay_steps : Z) (staircase : bool) (start_decay_steps : Z)
    (minimum_learning_rate : Q) (f : Q -> Z -> except Q)
    (learning_rate : Q) (global_step : Z) :
  learning_rate_decay_fn tf_train decay decay_type decay_rate decay_steps
    staircase start_decay_steps minimum_learning_rate = Ok f ->
  in_int64 (global_step - start_decay_steps) ->
  f learning_rate global_step =
    rate_at_effective_step tf_train decay decay_type decay_rate decay_steps
      staircase minimum_learning_rate learning_rate
      (Z.max (global_step - start_decay_steps) 0)
  /\ (global_step < start_decay_steps ->
      f learning_rate global_step =
        rate_at_effective_step tf_train decay decay_type decay_rate
          decay_steps staircase minimum_learning_rate learning_rate 0).
Proof.
  intros Hf Hrange. injection Hf as <-.
  assert (Heff : tf_maximum (wrap64 (global_step - start_decay_steps)) 0
                 = Z.max (global_step - start_decay_steps) 0).
  { unfold tf_maximum. now rewrite wrap64_in_range. }
  assert (Hstep : decay_fn tf_train decay decay_type decay_rate decay_steps
            staircase start_decay_steps minimum_learning_rate
            learning_rate global_step =
          rate_at_effective_step tf_train decay decay_type decay_rate
            decay_steps staircase minimum_learning_rate learning_rate
            (Z.max (global_step - start_decay_steps) 0)).
  { unfold decay_fn, rate_at_effective_step. now rewrite Heff. }
  split; [exact Hstep|].
  intros Hlt. rewrite Hstep. f_equal. lia.
Qed.

(** C3: a value returned by the decay function is at least
    [minimum_learning_rate]; and the function does return one, the
    clamped rate, whenever the resolved strategy returns. *)
Theorem decay_fn_at_least_minimum (decay_type : string) (decay_rate : Q)
    (decay_steps : Z) (staircase : bool) (start_decay_steps : Z)
    (minimum_learning_rate : Q) (f : Q -> Z -> except Q)
    (learning_rate : Q) (global_step : Z) :
  learning_rate_decay_fn tf_train decay decay_type decay_rate decay_steps
    staircase start_decay_steps minimum_learning_rate = Ok f ->
  (forall decayed, f learning_rate global_step = Ok decayed ->
     (minimum_learning_rate <= decayed)%Q)
  /\ (forall op v,
        resolve_decay_op tf_train decay decay_type = Ok op ->
        op learning_rate
           (tf_maximum (wrap64 (global_step - start_decay_steps)) 0)
           decay_steps decay_rate staircase = Returned v ->
        f learning_rate global_step = Ok (Qmax v minimum_learning_rate)).
Proof.
  intros Hf. injection Hf as <-. split.
  - intros decayed.
    destruct (resolve_decay_op tf_train decay decay_type) as [op|e] eqn:Hop.
    + rewrite (decay_fn_resolved _ _ _ _ _ _ _ _ _ Hop).
      destruct (op _ _ _ _ _) as [v|msg]; [|discriminate].
      intros [= <-]. apply Q.le_max_r.
    + rewrite (decay_fn_unresolved _ _ _ _ _ _ _ _ _ Hop). discriminate.
  - intros op v Hop Hv.
    rewrite (decay_fn_resolved _ _ _ _ _ _ _ _ _ Hop). now rewrite Hv.
Qed.

(** C4: the name is looked up in [tf.train] first, then in
    [opennmt.utils.decay]; the unknown-decay error ([ValueError] in the
    source) is raised if and only if neither has it. *)
Theorem resolve_decay_op_order (decay_type : string) :
  (forall op, tf_train decay_type = Some op ->
     resolve_decay_op tf_train decay decay_type = Ok op)
  /\ (forall op, tf_train decay_type = None -> decay decay_type = Some op ->
     resolve_decay_op tf_train decay decay_type = Ok op)
  /\ (resolve_decay_op tf_train decay decay_type
        = Raise (ValueError ("Unknown decay function: " +:+ decay_type))
      <-> tf_train decay_type = None /\ decay decay_type = None)
  /\ (forall decay_rate decay_steps staircase start_decay_steps
        minimum_learning_rate learning_rate global_step,
      (exists msg,
         decay_fn tf_train decay decay_type decay_rate decay_steps staircase
           start_decay_steps minimum_learning_rate learning_rate global_step
         = Raise (ValueError msg))
      <-> tf_train decay_type = None /\ decay decay_type = None).
Proof.
  rewrite resolve_decay_op_cases.
  split; [|split; [|split; [split|intros; split]]].
  - intros op ->. reflexivity.
  - intros op -> ->. reflexivity.
  - destruct (tf_train decay_type); [discriminate|].
    destruct (decay decay_type); [discriminate|]. now split.
  - intros [-> ->]. reflexivity.
  - intros [msg Hmsg]. revert Hmsg.
    unfold decay_fn. rewrite resolve_decay_op_cases.
    destruct (tf_train decay_type) as [op|]; simpl;
      [destruct (op _ _ _ _ _); discriminate|].
    destruct (decay decay_type) as [op|]; simpl;
      [destruct (op _ _ _ _ _); discriminate|].
    now split.
  - intros [Ht Hd]. exists ("Unknown decay function: " +:+ decay_type).
    unfold decay_fn. rewrite resolve_decay_op_cases, Ht, Hd. reflexivity.
Qed.

(** C10: [learning_rate_decay_fn] returns a function for every
    [decay_type]; for a name that neither module has, the error is
    raised by each application of that function. *)
Theorem learning_rate_decay_fn_defers_lookup (decay_type : string)
    (decay_rate : Q) (decay_steps : Z) (staircase : bool)
    (start_decay_steps : Z) (minimum_learning_rate : Q) :
  exists f,
    learning_rate_decay_fn tf_train decay decay_type decay_rate decay_steps
      staircase start_decay_steps minimum_learning_rate = Ok f
    /\ (tf_train decay_type = None -> decay decay_type = None ->
        forall learning_rate global_step,
          f learning_rate global_step
          = Raise (ValueError ("Unknown decay function: " +:+ decay_type))).
Proof.
  eexists. split; [reflexivity|].
  intros Ht Hd learning_rate global_step.
  apply decay_fn_unresolved.
  now rewrite resolve_decay_op_cases, Ht, Hd.
Qed.

End DecayFacts.

(** ** Bucketing *)

Lemma bucket_width_value (maximum_features_length : option Z) (num_buckets : Z) :
  1 < num_buckets ->
  bucket_width maximum_features_length num_buckets
  = Ok (spec_bucket_width_nonzero maximum_features_length num_buckets).
Proof.
  intros Hn. unfold bucket_width, spec_bucket_width_nonzero, py_floordiv.
  destruct maximum_features_length as [m|]; [|reflexivity].
  destruct (m =? 0); [reflexivity|].
  destruct (Z.eqb_spec num_buckets 0) as [->|_]; [lia|].
  now rewrite ceil_div_Zdiv by lia.
Qed.

Lemma key_func_value (maximum_features_length : option Z) (num_buckets : Z)
    (features : gmap string Z) (labels : pyobj Z) (length width : Z) :
  bucket_width maximum_features_length num_buckets = Ok width ->
  features !! "length" = Some length ->
  key_func maximum_features_length num_buckets features labels =
    if width =? 0
    then Raise (InvalidArgumentError "Integer division by zero")
    else Ok (Z.min (length / width) num_buckets).
Proof.
  intros Hw Hl. unfold key_func, getitem, tf_floordiv, tf_minimum.
  rewrite Hw, Hl. simpl. now destruct (width =? 0).
Qed.

(** C1: in the bucketing branch ([num_buckets > 1]) and for a bound that
    is unset or positive (a bound of zero or below is invalid
    configuration), [bucket_width] is
    [ceil(maximum_features_length / num_buckets)] when the bound is set and
    10 otherwise, and for every example carrying [length] the bucket id is
    [min(floor(length / bucket_width), num_buckets)].  With a bound of 100
    and 10 buckets the width is 10, length 95 goes to bucket 9 and length
    150 to bucket 10. *)
Theorem key_func_bucket_id :
  (forall maximum_features_length num_buckets features labels,
     1 < num_buckets ->
     unset_or_positive maximum_features_length ->
     spec_bucketing maximum_features_length num_buckets features labels)
  /\ bucket_width (Some 100) 10 = Ok 10
  /\ key_func (Some 100) 10 {[ "length" := 95 ]} PyNone = Ok 9
  /\ key_func (Some 100) 10 {[ "length" := 150 ]} PyNone = Ok 10.
Proof.
  split; [|repeat split; reflexivity].
  intros mfl n features labels Hn Hpos length Hl.
  assert (Hspec : spec_bucket_width_nonzero mfl n = spec_bucket_width mfl n
                  /\ spec_bucket_width mfl n <> 0).
  { unfold spec_bucket_width_nonzero, spec_bucket_width.
    destruct mfl as [m|]; [|split; [reflexivity|discriminate]].
    specialize (Hpos m eq_refl).
    destruct (Z.eqb_spec m 0) as [?|_]; [lia|]. split; [reflexivity|].
    rewrite ceil_div_Zdiv by lia.
    pose proof (Z.div_str_pos (m + n - 1) n ltac:(lia)). lia. }
  destruct Hspec as [Hsame Hnonzero].
  pose proof (bucket_width_value mfl n Hn) as Hw. rewrite Hsame in Hw.
  split; [exact Hw|].
  rewrite (key_func_value _ _ _ _ _ _ Hw Hl).
  destruct (Z.eqb_spec (spec_bucket_width mfl n) 0) as [?|_]; [contradiction|].
  unfold spec_bucket_id. now rewrite floor_div_Zdiv.
Qed.

(** ** Example filter *)

Lemma _filter_example_spec (features : gmap string Z) (labels : pyobj Z)
    (maximum_features_length maximum_labels_length : option Z) :
  _filter_example features labels maximum_features_length maximum_labels_length
  = spec_filter features labels maximum_features_length maximum_labels_length.
Proof.
  unfold _filter_example, spec_filter, spec_length_ok, tf_reduce_all,
    tf_greater, tf_less_equal.
  replace (match labels with
           | PyDict d => d !! "length"
           | PyNone | PyTensor _ => None
           end) with (labels_length labels) by now destruct labels.
  destruct (features !! "length") as [fl|];
    destruct (labels_length labels) as [ll|];
    destruct maximum_features_length as [fm|];
    destruct maximum_labels_length as [lm|]; simpl;
    rewrite ?andb_true_r; try reflexivity;
    now rewrite ?andb_assoc.
Qed.

Lemma spec_length_ok_nonpositive (length : Z) (maximum : option Z) :
  nonpositive maximum -> spec_length_ok (Some length) maximum = false.
Proof.
  intros (m & -> & Hm). unfold spec_length_ok.
  destruct (Z.ltb_spec 0 length); [|reflexivity].
  destruct (Z.leb_spec length m); [lia|reflexivity].
Qed.

Lemma _filter_example_nonpositive_features (features : gmap string Z)
    (labels : pyobj Z) (maximum_features_length maximum_labels_length : option Z) :
  is_Some (features !! "length") ->
  nonpositive maximum_features_length ->
  _filter_example features labels maximum_features_length maximum_labels_length
  = false.
Proof.
  intros [l Hl] Hbound. rewrite _filter_example_spec. unfold spec_filter.
  now rewrite Hl, spec_length_ok_nonpositive.
Qed.

Lemma _filter_example_nonpositive_labels (features : gmap string Z)
    (labels : pyobj Z) (maximum_features_length maximum_labels_length : option Z) :
  carries_length labels ->
  nonpositive maximum_labels_length ->
  _filter_example features labels maximum_features_length maximum_labels_length
  = false.
Proof.
  intros (d & -> & l & Hl) Hbound. rewrite _filter_example_spec.
  unfold spec_filter. simpl. rewrite Hl, spec_length_ok_nonpositive by done.
  apply andb_false_r.
Qed.

(** C7: the filter is the conjunction of the applicable conditions: for
    [features] carrying [length], [length > 0] and, with the bound set,
    [length <= maximum_features_length]; the same for [labels] when it is
    a mapping carrying [length]; with no length at all it accepts. *)
Theorem _filter_example_conjunction :
  (forall features labels maximum_features_length maximum_labels_length,
     _filter_example features labels maximum_features_length maximum_labels_length
     = spec_filter features labels maximum_features_length maximum_labels_length)
  /\ (forall features labels maximum_features_length maximum_labels_length,
        features !! "length" = None -> ~ carries_length labels ->
        _filter_example features labels
          maximum_features_length maximum_labels_length = true)
  /\ _filter_example {[ "length" := 0 ]} PyNone None None = false
  /\ _filter_example {[ "length" := 5 ]} PyNone (Some 4) None = false
  /\ _filter_example {[ "length" := 5 ]} PyNone (Some 10) None = true
  /\ _filter_example ∅ PyNone None None = true.
Proof.
  split; [exact _filter_example_spec|]. split; [|repeat split; reflexivity].
  intros features labels mfl mll Hf Hl.
  rewrite _filter_example_spec. unfold spec_filter. rewrite Hf. simpl.
  destruct (labels_length labels) as [l|] eqn:Hll; [|reflexivity].
  exfalso. apply Hl. apply labels_length_carries. now rewrite Hll.
Qed.

(** ** Word counter *)

Lemma _count_words_nodes (features : gmap string (list Z))
    (labels : pyobj (list Z)) :
  _count_words features labels =
    match features !! "length" with
    | Some l => _add_counter (tf_reduce_sum l) "features"
    | None => []
    end ++
    match labels_length labels with
    | Some l => _add_counter (tf_reduce_sum l) "labels"
    | None => []
    end.
Proof. unfold _count_words. now destruct labels. Qed.

Lemma run_add_counter (store : gmap string Z) (word_count : Z) (name : string) :
  store !! words_per_sec (name +:+ "_init") = None ->
  run_nodes store (_add_counter word_count name)
  = <[words_per_sec (name +:+ "_init") := wrap64 word_count]> store.
Proof.
  intros Hfresh. unfold run_nodes, _add_counter, tf_cast_int64. simpl.
  rewrite Hfresh, lookup_insert_eq, insert_insert_eq.
  now rewrite Z.add_0_l, wrap64_idempotent.
Qed.

Lemma _count_words_store (features : gmap string (list Z))
    (labels : pyobj (list Z)) :
  run_nodes ∅ (_count_words features labels) =
    let store : gmap string Z :=
      match features !! "length" with
      | Some l => {[ "words_per_sec/features_init" := wrap64 (tf_reduce_sum l) ]}
      | None => ∅
      end in
    match labels_length labels with
    | Some l => <["words_per_sec/labels_init" := wrap64 (tf_reduce_sum l)]> store
    | None => store
    end.
Proof.
  rewrite _count_words_nodes. unfold run_nodes. rewrite fold_left_app.
  fold (run_nodes ∅ match features !! "length" with
                    | Some l => _add_counter (tf_reduce_sum l) "features"
                    | None => []
                    end).
  destruct (features !! "length") as [fl|].
  - rewrite run_add_counter by done.
    destruct (labels_length labels) as [ll|]; [|reflexivity].
    fold (run_nodes (<[words_per_sec ("features" +:+ "_init") := wrap64 (tf_reduce_sum fl)]> ∅)
            (_add_counter (tf_reduce_sum ll) "labels")).
    now rewrite run_add_counter by done.
  - simpl. destruct (labels_length labels) as [ll|]; [|reflexivity].
    fold (run_nodes ∅ (_add_counter (tf_reduce_sum ll) "labels")).
    now rewrite run_add_counter by done.
Qed.

(** C9: one call creates and updates the features counter exactly when
    [features] carries [length], and the labels counter exactly when
    [labels] is a mapping carrying [length]; run from an empty store, the
    step leaves in each counter the sum of the lengths, and no counter
    where there is no length. *)
Theorem _count_words_counters (features : gmap string (list Z))
    (labels : pyobj (list Z)) :
  let nodes := _count_words features labels in
  (creates_counter nodes "words_per_sec/features_init"
     <-> is_Some (features !! "length"))
  /\ (updates_counter nodes "words_per_sec/features_init"
     <-> is_Some (features !! "length"))
  /\ (creates_counter nodes "words_per_sec/labels_init"
     <-> carries_length labels)
  /\ (updates_counter nodes "words_per_sec/labels_init"
     <-> carries_length labels)
  /\ run_nodes ∅ nodes !! "words_per_sec/features_init"
     = (fun l => wrap64 (tf_reduce_sum l)) <$> features !! "length"
  /\ run_nodes ∅ nodes !! "words_per_sec/labels_init"
     = (fun l => wrap64 (tf_reduce_sum l)) <$> labels_length labels.
Proof.
  intros nodes. subst nodes.
  rewrite _count_words_store.
  rewrite <- !labels_length_carries, _count_words_nodes.
  unfold creates_counter, updates_counter.
  destruct (features !! "length") as [fl|];
    destruct (labels_length labels) as [ll|]; simpl;
    repeat match goal with
      | |- _ /\ _ => split
      | |- _ <-> _ => split
      | |- is_Some (Some _) -> _ => intros _
      | |- _ -> is_Some (Some _) => intros _; eexists; reflexivity
      | |- is_Some None -> _ => intros [? ?]; discriminate
      | |- (exists _ _, _) -> is_Some None =>
          intros (? & ? & Hin); simpl in Hin;
          repeat (destruct Hin as [Hin|Hin]; [discriminate Hin|]);
          destruct Hin
      | |- exists _ _, _ => do 2 eexists; simpl; eauto 6
      end;
    try reflexivity.
Qed.

(** ** Training op *)

(** A missing [decay_type] key is a [KeyError], not a null decay type. *)
Lemma _build_train_op_missing_decay_type (tf_train decay : namespace)
    (loss : Q) (p : params) :
  p_decay_type p = None ->
  _build_train_op tf_train decay loss p = Raise (KeyError "decay_type").
Proof. intros Hp. unfold _build_train_op. now rewrite Hp. Qed.

(** C8, as the code has it: with the [decay_type] key present and null,
    no decay function is handed to [optimize_loss]; the learning rate it
    receives is [params["learning_rate"]], and that is the optimizer's
    rate at every step.  With the [decay_type] key absent,
    [params["decay_type"]] raises [KeyError]. *)
Theorem _build_train_op_no_decay (tf_train decay : namespace) (loss : Q)
    (p : params) :
  (forall learning_rate optimizer clip_gradients,
     p_decay_type p = Some None ->
     p_learning_rate p = Some learning_rate ->
     p_optimizer p = Some optimizer ->
     p_clip_gradients p = Some clip_gradients ->
     exists call,
       _build_train_op tf_train decay loss p = Ok call
       /\ ol_learning_rate_decay_fn call = None
       /\ ol_learning_rate call = learning_rate
       /\ forall global_step,
            optimizer_learning_rate call global_step = Ok learning_rate)
  /\ (p_decay_type p = None ->
      _build_train_op tf_train decay loss p = Raise (KeyError "decay_type")).
Proof.
  split.
  - intros learning_rate optimizer clip_gradients Hdecay Hrate Hopt Hclip.
    unfold _build_train_op. rewrite Hdecay, Hrate, Hopt, Hclip. simpl.
    eexists. split; [reflexivity|]. repeat split.
  - apply _build_train_op_missing_decay_type.
Qed.

(** ** Input function *)

Section InputFacts.

Context `{M : Model}.

Lemma input_fn_cases (mode : string) (batch_size buffer_size num_buckets : Z)
    (resources : gmap string string) (features_file : string)
    (labels_file : option string)
    (maximum_features_length maximum_labels_length : option Z) :
  (mode <> PREDICT /\ labels_file = None
   /\ input_fn mode batch_size buffer_size num_buckets resources features_file
        labels_file maximum_features_length maximum_labels_length
      = Raise (ValueError "Labels file is required for training and evaluation"))
  \/ ((mode = PREDICT \/ is_Some labels_file)
      /\ input_fn mode batch_size buffer_size num_buckets resources
           features_file labels_file
           maximum_features_length maximum_labels_length
         = Ok (fun now =>
                 _input_fn_impl now mode batch_size buffer_size num_buckets
                   resources features_file labels_file
                   maximum_features_length maximum_labels_length)).
Proof.
  unfold input_fn.
  destruct (decide (mode = PREDICT)) as [Hm|Hm].
  - right. rewrite (bool_decide_eq_true_2 _ Hm). simpl. auto.
  - rewrite (bool_decide_eq_false_2 _ Hm). simpl.
    destruct labels_file as [lf|].
    + right. rewrite bool_decide_eq_true_2 by eauto. simpl. eauto.
    + left. rewrite bool_decide_eq_false_2 by (intros [? ?]; discriminate).
      simpl. auto.
Qed.

Lemma _input_fn_impl_builds (now : Z) (mode : string)
    (batch_size buffer_size num_buckets : Z) (resources : gmap string string)
    (features_file : string) (labels_file : option string)
    (maximum_features_length maximum_labels_length : option Z) :
  mode = PREDICT \/ is_Some labels_file ->
  exists pipeline,
    _input_fn_impl now mode batch_size buffer_size num_buckets resources
      features_file labels_file maximum_features_length maximum_labels_length
    = Ok pipeline.
Proof.
  intros Hok. unfold _input_fn_impl.
  destruct (_build_features features_file resources) as [fd fs].
  destruct labels_file as [lf|].
  - destruct (_build_labels lf resources) as [ld ls].
    destruct (bool_decide (mode = TRAIN)); simpl;
      destruct (bool_decide (mode = PREDICT) || (num_buckets <=? 1)); simpl;
      eexists; reflexivity.
  - destruct Hok as [->|[? ?]]; [|discriminate].
    simpl. eexists; reflexivity.
Qed.

(** C6: outside predict mode, [input_fn] without a labels file raises
    the error itself ([ValueError] in the source), before the input
    function it would return exists; with a labels file, or in predict
    mode, it returns the input function. *)
Theorem input_fn_labels_file_required (mode : string)
    (batch_size buffer_size num_buckets : Z) (resources : gmap string string)
    (features_file : string) (labels_file : option string)
    (maximum_features_length maximum_labels_length : option Z) :
  (mode <> PREDICT -> labels_file = None ->
     input_fn mode batch_size buffer_size num_buckets resources features_file
       labels_file maximum_features_length maximum_labels_length
     = Raise (ValueError "Labels file is required for training and evaluation"))
  /\ (mode = PREDICT \/ is_Some labels_file ->
      exists f,
        input_fn mode batch_size buffer_size num_buckets resources
          features_file labels_file
          maximum_features_length maximum_labels_length = Ok f).
Proof.
  destruct (input_fn_cases mode batch_size buffer_size num_buckets resources
              features_file labels_file
              maximum_features_length maximum_labels_length)
    as [(Hm & Hl & Hr)|(Hok & Hr)]; rewrite Hr; split.
  - reflexivity.
  - intros [?|[? ?]]; [contradiction|congruence].
  - intros Hm Hl. destruct Hok as [?|[? ?]]; [contradiction|congruence].
  - intros _. eexists; reflexivity.
Qed.

(** C5, as the code has it: the length bounds are not checked.  Whatever
    they are, zero and negative included, [input_fn] raises only for a
    missing labels file outside predict mode, and the input function it
    returns builds the pipeline; in training a bound that is zero or
    negative makes the filter drop every example carrying that length. *)
Theorem input_fn_ignores_length_bounds (mode : string)
    (batch_size buffer_size num_buckets : Z) (resources : gmap string string)
    (features_file : string) (labels_file : option string)
    (maximum_features_length maximum_labels_length : option Z) :
  ((exists e,
      input_fn mode batch_size buffer_size num_buckets resources features_file
        labels_file maximum_features_length maximum_labels_length = Raise e)
   <-> mode <> PREDICT /\ labels_file = None)
  /\ (forall f now,
        input_fn mode batch_size buffer_size num_buckets resources
          features_file labels_file
          maximum_features_length maximum_labels_length = Ok f ->
        exists pipeline, f now = Ok pipeline)
  /\ (forall features labels,
        is_Some (features !! "length") ->
        nonpositive maximum_features_length ->
        _filter_example features labels
          maximum_features_length maximum_labels_length = false)
  /\ (forall features labels,
        carries_length labels ->
        nonpositive maximum_labels_length ->
        _filter_example features labels
          maximum_features_length maximum_labels_length = false).
Proof.
  split; [|split; [|split]].
  - destruct (input_fn_cases mode batch_size buffer_size num_buckets
                resources features_file labels_file
                maximum_features_length maximum_labels_length)
      as [(Hm & Hl & Hr)|(Hok & Hr)]; rewrite Hr; split.
    + auto.
    + eauto.
    + intros [e He]. discriminate.
    + intros [Hm Hl]. destruct Hok as [?|[? ?]]; [contradiction|congruence].
  - intros f now.
    destruct (input_fn_cases mode batch_size buffer_size num_buckets
                resources features_file labels_file
                maximum_features_length maximum_labels_length)
      as [(Hm & Hl & Hr)|(Hok & Hr)]; rewrite Hr; [discriminate|].
    intros [= <-]. now apply _input_fn_impl_builds.
  - intros features labels Hlen Hbound.
    now apply _filter_example_nonpositive_features.
  - intros features labels Hlen Hbound.
    now apply _filter_example_nonpositive_labels.
Qed.

End InputFacts.

(** ** The properties at concrete inputs *)

(** A bound of zero is outside the valid configurations of the rule: the
    code reads it as unset and takes the default width 10. *)
Lemma spec_bucketing_fails_at_zero_bound :
  ~ spec_bucketing (Some 0) 10 {[ "length" := 95 ]} PyNone.
Proof.
  intros Hspec. destruct (Hspec 95 eq_refl) as [Hwidth _].
  vm_compute in Hwidth. discriminate Hwidth.
Qed.

(** Length 95 under a bound of 100 and 10 buckets. *)
Lemma key_func_bucket_id_witness :
  bucket_width (Some 100) 10 = Ok (spec_bucket_width (Some 100) 10)
  /\ key_func (Some 100) 10 {[ "length" := 95 ]} PyNone
     = Ok (spec_bucket_id 95 (spec_bucket_width (Some 100) 10) 10).
Proof.
  apply (proj1 key_func_bucket_id (Some 100) 10 {[ "length" := 95 ]} PyNone);
    [lia | intros m [= <-]; lia | reflexivity].
Defined.

(** Step 500 of a schedule that starts decaying at step 1000. *)
Lemma decay_fn_effective_step_witness :
  decay_fn example_tf_train example_decay "exponential_decay"
    (1 # 2) 100 true 1000 (1 # 100) 1 500
  = rate_at_effective_step example_tf_train example_decay "exponential_decay"
      (1 # 2) 100 true (1 # 100) 1 (Z.max (500 - 1000) 0)
  /\ (500 < 1000 ->
      decay_fn example_tf_train example_decay "exponential_decay"
        (1 # 2) 100 true 1000 (1 # 100) 1 500
      = rate_at_effective_step example_tf_train example_decay
          "exponential_decay" (1 # 2) 100 true (1 # 100) 1 0).
Proof.
  apply (decay_fn_effective_step example_tf_train example_decay
           "exponential_decay" (1 # 2) 100 true 1000 (1 # 100) _ 1 500);
    [reflexivity | unfold in_int64; lia].
Defined.

(** Step 1400: four halvings of rate 1, above the minimum 1/100. *)
Lemma decay_fn_at_least_minimum_witness :
  decay_fn example_tf_train example_decay "exponential_decay"
    (1 # 2) 100 true 1000 (1 # 100) 1 1400 = Ok (1 # 16)%Q
  /\ (1 # 100 <= 1 # 16)%Q.
Proof.
  split; [reflexivity|].
  apply (proj1 (decay_fn_at_least_minimum example_tf_train example_decay
                  "exponential_decay" (1 # 2) 100 true 1000 (1 # 100) _
                  1 1400 eq_refl)).
  reflexivity.
Defined.

(** A name both modules have resolves in [tf.train]; a name only the
    custom module has resolves there. *)
Lemma resolve_decay_op_order_witness :
  resolve_decay_op example_tf_train example_decay "exponential_decay"
  = Ok staircase_exponential_decay
  /\ resolve_decay_op example_tf_train example_decay "constant_decay"
     = Ok constant_decay.
Proof.
  split.
  - apply (proj1 (resolve_decay_op_order example_tf_train example_decay
                    "exponential_decay")).
    reflexivity.
  - apply (proj1 (proj2 (resolve_decay_op_order example_tf_train example_decay
                           "constant_decay")));
      reflexivity.
Defined.

(** An unknown name: the closure is returned, its application raises. *)
Lemma learning_rate_decay_fn_defers_lookup_witness :
  exists f,
    learning_rate_decay_fn example_tf_train example_decay "no_such_decay"
      (1 # 2) 100 true 0 0 = Ok f
    /\ f 1%Q 0 = Raise (ValueError "Unknown decay function: no_such_decay").
Proof.
  destruct (learning_rate_decay_fn_defers_lookup example_tf_train example_decay
              "no_such_decay" (1 # 2) 100 true 0 0) as (f & Hf & Hraise).
  exists f. split; [exact Hf|].
  apply Hraise; reflexivity.
Defined.

(** No length in [features], and [labels] a bare tensor. *)
Lemma _filter_example_conjunction_witness :
  _filter_example {[ "ids" := 3 ]} (PyTensor 7) (Some 10) (Some 10) = true.
Proof.
  apply (proj1 (proj2 _filter_example_conjunction)).
  - reflexivity.
  - intros (d & Hd & _). discriminate Hd.
Defined.

(** [example_params] has a null [decay_type]. *)
Lemma _build_train_op_no_decay_witness :
  exists call,
    _build_train_op example_tf_train example_decay 3 example_params = Ok call
    /\ ol_learning_rate_decay_fn call = None
    /\ ol_learning_rate call = (1 # 10)%Q
    /\ forall global_step,
         optimizer_learning_rate call global_step = Ok (1 # 10)%Q.
Proof.
  apply (proj1 (_build_train_op_no_decay example_tf_train example_decay 3
                  example_params) (1 # 10)%Q "Adam" None);
    reflexivity.
Defined.

(** With the [decay_type] key absent, the builder does not get as far as
    the learning rate: it raises [KeyError]. *)
Lemma spec_no_decay_fails_on_absent_key :
  ~ spec_no_decay_when_null_or_absent example_tf_train example_decay 3
      example_params_without_decay_type.
Proof.
  intros Hspec.
  destruct (Hspec (1 # 10)%Q "Adam" None (or_intror eq_refl)
              eq_refl eq_refl eq_refl) as (call & Hcall & _).
  discriminate Hcall.
Qed.

(** Training without a labels file. *)
Lemma input_fn_labels_file_required_witness :
  input_fn TRAIN 32 1000 5 ∅ "src.txt" None None None
  = Raise (ValueError "Labels file is required for training and evaluation").
Proof.
  apply (proj1 (input_fn_labels_file_required TRAIN 32 1000 5 ∅ "src.txt"
                  None None None)).
  - discriminate.
  - reflexivity.
Defined.

(** Failing fast on non-positive bounds, as specified, is not what
    [input_fn] does: with bounds 0 and -1 it returns the input function. *)
Lemma spec_rejects_nonpositive_bounds_fails :
  ~ spec_rejects_nonpositive_bounds TRAIN 32 1000 5 ∅ "src.txt" (Some "tgt.txt").
Proof.
  intros Hspec.
  destruct (Hspec (Some 0) (Some (-1))) as [e He].
  - left. exists 0. split; [reflexivity | lia].
  - discriminate He.
Qed.

(** Bounds 0 and -1 in training: the filter drops an example of length 5. *)
Lemma input_fn_ignores_length_bounds_witness :
  _filter_example {[ "length" := 5 ]} PyNone (Some 0) (Some (-1)) = false.
Proof.
  apply (proj1 (proj2 (proj2 (input_fn_ignores_length_bounds TRAIN 32 1000 5 ∅
                  "src.txt" (Some "tgt.txt") (Some 0) (Some (-1)))))).
  - exists 5. reflexivity.
  - exists 0. split; [reflexivity | lia].
Defined.

(** * Further properties of the code *)

(** ** Bucket widths and bucket ids *)

Lemma bucket_width_unset_or_positive (maximum_features_length : option Z)
    (num_buckets : Z) :
  1 < num_buckets ->
  unset_or_positive maximum_features_length ->
  exists width,
    bucket_width maximum_features_length num_buckets = Ok width /\ 1 <= width
    /\ forall m, maximum_features_length = Some m ->
         m <= num_buckets * width /\ num_buckets * (width - 1) < m.
Proof.
  intros Hn Hpos. unfold bucket_width, py_floordiv.
  destruct maximum_features_length as [m|].
  - specialize (Hpos m eq_refl).
    destruct (Z.eqb_spec m 0) as [?|_]; [lia|].
    destruct (Z.eqb_spec num_buckets 0) as [?|_]; [lia|].
    exists ((m + num_buckets - 1) / num_buckets).
    pose proof (Z.div_mod (m + num_buckets - 1) num_buckets ltac:(lia)) as Hdm.
    pose proof (Z.mod_pos_bound (m + num_buckets - 1) num_buckets ltac:(lia)) as Hr.
    split; [reflexivity|]. split; [nia|].
    intros m' [= <-]. split; nia.
  - exists 10. split; [reflexivity|]. split; [lia|]. intros m [=].
Qed.

(** X1: for a positive bound, the width computed at line 220 is the least
    width with which [num_buckets] buckets reach the bound: it is at
    least 1, [num_buckets * width] is at least the bound, and one less
    would fall short. *)
Theorem bucket_width_least_cover (m num_buckets : Z) :
  1 < num_buckets -> 0 < m ->
  exists width,
    bucket_width (Some m) num_buckets = Ok width
    /\ 1 <= width
    /\ m <= num_buckets * width
    /\ num_buckets * (width - 1) < m.
Proof.
  intros Hn Hm.
  destruct (bucket_width_unset_or_positive (Some m) num_buckets Hn)
    as (width & Hw & Hone & Hcover).
  { intros m' [= <-]. exact Hm. }
  exists width. destruct (Hcover m eq_refl). auto.
Qed.

(** X2: an example without [length] makes the key function raise
    [KeyError]. *)
Theorem key_func_missing_length (maximum_features_length : option Z)
    (num_buckets : Z) (features : gmap string Z) (labels : pyobj Z) :
  1 < num_buckets ->
  features !! "length" = None ->
  key_func maximum_features_length num_buckets features labels
  = Raise (KeyError "length").
Proof.
  intros Hn Hl. unfold key_func, getitem.
  rewrite (bucket_width_value _ _ Hn), Hl. reflexivity.
Qed.

(** X3: with the bound unset or positive and a length that is not
    negative, the key function returns an id between 0 and
    [num_buckets]; a length below the bound gets an id below
    [num_buckets], so only lengths at or above the bound reach the
    overflow bucket. *)
Theorem key_func_bucket_range (maximum_features_length : option Z)
    (num_buckets : Z) (features : gmap string Z) (labels : pyobj Z)
    (length : Z) :
  1 < num_buckets ->
  unset_or_positive maximum_features_length ->
  features !! "length" = Some length ->
  0 <= length ->
  exists bucket_id,
    key_func maximum_features_length num_buckets features labels = Ok bucket_id
    /\ 0 <= bucket_id <= num_buckets
    /\ forall m, maximum_features_length = Some m -> length < m ->
         bucket_id < num_buckets.
Proof.
  intros Hn Hpos Hl Hlen.
  destruct (bucket_width_unset_or_positive _ _ Hn Hpos)
    as (width & Hw & Hone & Hcover).
  rewrite (key_func_value _ _ _ _ _ _ Hw Hl).
  destruct (Z.eqb_spec width 0) as [?|_]; [lia|].
  eexists. split; [reflexivity|].
  pose proof (Z.div_pos length width Hlen ltac:(lia)) as Hq.
  split; [lia|].
  intros m Hm Hlt. destruct (Hcover m Hm) as [Hle _].
  apply Z.min_lt_iff. left.
  apply Z.div_lt_upper_bound; nia.
Qed.

(** X4: with the bound unset or positive, a longer example never gets a
    smaller bucket id. *)
Theorem key_func_monotone (maximum_features_length : option Z)
    (num_buckets : Z) (features features' : gmap string Z)
    (labels labels' : pyobj Z) (length length' : Z) :
  1 < num_buckets ->
  unset_or_positive maximum_features_length ->
  features !! "length" = Some length ->
  features' !! "length" = Some length' ->
  length <= length' ->
  exists bucket_id bucket_id',
    key_func maximum_features_length num_buckets features labels = Ok bucket_id
    /\ key_func maximum_features_length num_buckets features' labels'
       = Ok bucket_id'
    /\ bucket_id <= bucket_id'.
Proof.
  intros Hn Hpos Hl Hl' Hle.
  destruct (bucket_width_unset_or_positive _ _ Hn Hpos)
    as (width & Hw & Hone & _).
  rewrite (key_func_value _ _ _ _ _ _ Hw Hl), (key_func_value _ _ _ _ _ _ Hw Hl').
  destruct (Z.eqb_spec width 0) as [?|_]; [lia|].
  do 2 eexists. split; [reflexivity|]. split; [reflexivity|].
  apply Z.min_le_compat_r. apply Z.div_le_mono; lia.
Qed.

(** X5: an example that the training filter accepts under a features
    bound is bucketed without error, and [tf.minimum] has nothing to
    clamp: its id is [length // bucket_width], between 0 and
    [num_buckets]. *)
Theorem key_func_after_filter (m num_buckets : Z)
    (maximum_labels_length : option Z) (features : gmap string Z)
    (labels : pyobj Z) (length : Z) :
  1 < num_buckets ->
  features !! "length" = Some length ->
  _filter_example features labels (Some m) maximum_labels_length = true ->
  exists width,
    bucket_width (Some m) num_buckets = Ok width
    /\ key_func (Some m) num_buckets features labels = Ok (length / width)
    /\ 0 <= length / width <= num_buckets.
Proof.
  intros Hn Hl Hfilter.
  rewrite _filter_example_spec in Hfilter. unfold spec_filter in Hfilter.
  rewrite Hl in Hfilter. simpl in Hfilter.
  apply andb_prop in Hfilter as [Hfeat _].
  apply andb_prop in Hfeat as [Hpos Hmax].
  apply Z.ltb_lt in Hpos. apply Z.leb_le in Hmax.
  destruct (bucket_width_unset_or_positive (Some m) num_buckets Hn)
    as (width & Hw & Hone & Hcover).
  { intros m' [= <-]. lia. }
  destruct (Hcover m eq_refl) as [Hle _].
  exists width. split; [exact Hw|].
  rewrite (key_func_value _ _ _ _ _ _ Hw Hl).
  destruct (Z.eqb_spec width 0) as [?|_]; [lia|].
  assert (Hq : 0 <= length / width <= num_buckets).
  { split; [apply Z.div_pos; lia|].
    apply Z.div_le_upper_bound; nia. }
  split; [|exact Hq]. f_equal. lia.
Qed.

(** ** Example filter *)

Lemma spec_length_ok_looser (length : option Z) (bound bound' : option Z) :
  looser_bound bound bound' ->
  spec_length_ok length bound = true -> spec_length_ok length bound' = true.
Proof.
  unfold looser_bound, spec_length_ok. intros Hloose.
  destruct length as [l|]; [|reflexivity].
  destruct (0 <? l); [simpl|discriminate].
  destruct bound as [m|], bound' as [m'|]; try reflexivity; try contradiction.
  intros Hle%Z.leb_le. apply Z.leb_le. lia.
Qed.

(** X6: loosening or removing a length bound never drops an example that
    the filter accepted. *)
Theorem _filter_example_looser_bounds (features : gmap string Z)
    (labels : pyobj Z)
    (maximum_features_length maximum_labels_length : option Z)
    (maximum_features_length' maximum_labels_length' : option Z) :
  looser_bound maximum_features_length maximum_features_length' ->
  looser_bound maximum_labels_length maximum_labels_length' ->
  _filter_example features labels
    maximum_features_length maximum_labels_length = true ->
  _filter_example features labels
    maximum_features_length' maximum_labels_length' = true.
Proof.
  intros Hf Hl. rewrite !_filter_example_spec. unfold spec_filter.
  intros [Hfeat Hlab]%andb_prop.
  now rewrite (spec_length_ok_looser _ _ _ Hf Hfeat),
    (spec_length_ok_looser _ _ _ Hl Hlab).
Qed.

(** X7: an example whose features length, or whose labels length, is
    zero or negative is dropped whatever the bounds are, also when none
    is set. *)
Theorem _filter_example_drops_empty (features : gmap string Z)
    (labels : pyobj Z)
    (maximum_features_length maximum_labels_length : option Z) (length : Z) :
  length <= 0 ->
  features !! "length" = Some length \/ labels_length labels = Some length ->
  _filter_example features labels
    maximum_features_length maximum_labels_length = false.
Proof.
  intros Hlen Hcarried. rewrite _filter_example_spec. unfold spec_filter.
  assert (Hbad : forall bound, spec_length_ok (Some length) bound = false).
  { intros bound. unfold spec_length_ok.
    destruct (Z.ltb_spec 0 length); [lia|reflexivity]. }
  destruct Hcarried as [-> | ->]; rewrite Hbad; [reflexivity|].
  apply andb_false_r.
Qed.

(** ** Word counters over several steps *)

Lemma wrap64_range (z : Z) : in_int64 (wrap64 z).
Proof.
  unfold in_int64, wrap64.
  pose proof (Z.mod_pos_bound (z + 2 ^ 63) (2 ^ 64)). lia.
Qed.

Lemma wrap64_add_l (a b : Z) : wrap64 (wrap64 a + b) = wrap64 (a + b).
Proof.
  unfold wrap64. f_equal.
  replace ((a + 2 ^ 63) mod 2 ^ 64 - 2 ^ 63 + b + 2 ^ 63)
    with ((a + 2 ^ 63) mod 2 ^ 64 + b) by lia.
  rewrite Zplus_mod_idemp_l. f_equal. lia.
Qed.

Lemma wrap64_add_r (a b : Z) : wrap64 (a + wrap64 b) = wrap64 (a + b).
Proof. now rewrite (Z.add_comm a), wrap64_add_l, Z.add_comm. Qed.

Lemma run_add_counter_again (store : gmap string Z) (word_count total : Z)
    (name : string) :
  store !! words_per_sec (name +:+ "_init") = Some total ->
  run_nodes store (_add_counter word_count name)
  = <[words_per_sec (name +:+ "_init") := wrap64 (total + word_count)]> store.
Proof.
  intros Hthere. unfold run_nodes, _add_counter, tf_cast_int64. simpl.
  rewrite Hthere. simpl. rewrite Hthere.
  now rewrite wrap64_add_r.
Qed.

Lemma run_nodes_nil (store : gmap string Z) : run_nodes store [] = store.
Proof. reflexivity. Qed.

Lemma run_nodes_app (store : gmap string Z) (ns ns' : list graph_node) :
  run_nodes store (ns ++ ns') = run_nodes (run_nodes store ns) ns'.
Proof. apply fold_left_app. Qed.

(** One counter on any store: created at its word count, or grown by it. *)
Lemma run_add_counter_lookup (store : gmap string Z) (word_count : Z)
    (name : string) (variable : string) :
  run_nodes store (_add_counter word_count name) !! variable
  = if decide (words_per_sec (name +:+ "_init") = variable)
    then Some (wrap64 (default 0 (store !! variable) + word_count))
    else store !! variable.
Proof.
  destruct (store !! words_per_sec (name +:+ "_init")) as [total|] eqn:Hstore.
  - rewrite (run_add_counter_again _ _ total) by exact Hstore.
    rewrite lookup_insert. destruct (decide _) as [<-|]; [|reflexivity].
    now rewrite Hstore.
  - rewrite run_add_counter by exact Hstore.
    rewrite lookup_insert. destruct (decide _) as [<-|]; [|reflexivity].
    now rewrite Hstore.
Qed.

(** One step on any store: each counter is created at its word count, or
    grows by it, and is left alone when its length is absent. *)
Lemma _count_words_step (store : gmap string Z)
    (features : gmap string (list Z)) (labels : pyobj (list Z)) :
  let bump (count : option Z) (total : option Z) : option Z :=
    match count with
    | Some c => Some (wrap64 (default 0 total + c))
    | None => total
    end in
  let store' := run_nodes store (_count_words features labels) in
  store' !! "words_per_sec/features_init"
  = bump (tf_reduce_sum <$> features !! "length")
      (store !! "words_per_sec/features_init")
  /\ store' !! "words_per_sec/labels_init"
     = bump (tf_reduce_sum <$> labels_length labels)
         (store !! "words_per_sec/labels_init").
Proof.
  intros bump store'. subst store' bump.
  rewrite _count_words_nodes, run_nodes_app.
  destruct (features !! "length") as [fl|];
    destruct (labels_length labels) as [ll|];
    rewrite ?run_nodes_nil, ?run_add_counter_lookup; split; reflexivity.
Qed.

Lemma counter_after_snoc (counts : list Z) (count : Z) :
  counter_after (counts ++ [count])
  = Some (wrap64 (default 0 (counter_after counts) + count)).
Proof.
  assert (Hsum : tf_reduce_sum (counts ++ [count]) = tf_reduce_sum counts + count).
  { unfold tf_reduce_sum. induction counts as [|c counts IH]; simpl; lia. }
  unfold counter_after.
  destruct counts as [|c counts].
  - simpl. do 2 f_equal. unfold tf_reduce_sum. simpl. lia.
  - change ((c :: counts) ++ [count]) with (c :: (counts ++ [count])).
    change (c :: counts ++ [count]) with ((c :: counts) ++ [count]).
    rewrite Hsum. simpl default. now rewrite wrap64_add_l.
Qed.

(** X8: after any number of steps from an empty store, each counter
    holds the sum, wrapped to [int64], of the word counts of the batches
    that carried a length for it, and does not exist if none did. *)
Theorem run_batches_counters
    (batches : list (gmap string (list Z) * pyobj (list Z))) :
  run_batches ∅ batches !! "words_per_sec/features_init"
  = counter_after (features_word_counts batches)
  /\ run_batches ∅ batches !! "words_per_sec/labels_init"
     = counter_after (labels_word_counts batches).
Proof.
  induction batches as [|batch batches IH] using rev_ind.
  - split; reflexivity.
  - unfold run_batches, features_word_counts, labels_word_counts in *.
    rewrite fold_left_app, !omap_app. simpl.
    destruct IH as [IHf IHl].
    destruct (_count_words_step
                (fold_left
                   (fun store batch => run_nodes store (_count_words batch.1 batch.2))
                   batches ∅) batch.1 batch.2) as [Hf Hl].
    rewrite Hf, Hl, IHf, IHl. clear Hf Hl IHf IHl.
    split.
    + destruct (batch.1 !! "length") as [l|]; simpl.
      * now rewrite counter_after_snoc.
      * now rewrite app_nil_r.
    + destruct (labels_length batch.2) as [l|]; simpl.
      * now rewrite counter_after_snoc.
      * now rewrite app_nil_r.
Qed.

(** X9: the nodes of one call: every variable is created at 0 and not
    trainable, and every update adds an [int64] value to a variable that
    the same call created in the node just before it. *)
Theorem _count_words_well_formed (features : gmap string (list Z))
    (labels : pyobj (list Z)) :
  let nodes := _count_words features labels in
  (forall i name initial_value trainable,
     nodes !! i = Some (VariableNode name initial_value trainable) ->
     initial_value = 0 /\ trainable = false)
  /\ (forall i name ref value,
        nodes !! i = Some (AssignAddNode name ref value) ->
        in_int64 value
        /\ exists j, i = S j /\ nodes !! j = Some (VariableNode ref 0 false)).
Proof.
  intros nodes. subst nodes. rewrite _count_words_nodes.
  unfold _add_counter, tf_cast_int64.
  destruct (features !! "length") as [fl|];
    destruct (labels_length labels) as [ll|]; simpl; split.
  all: intros [|[|[|[|i]]]]; simpl; intros; simplify_eq; auto.
  all: split; [apply wrap64_range|]; eexists; split; reflexivity.
Qed.

(** ** Decay function *)

Section DecayMore.

Variable tf_train : namespace.
Variable decay : namespace.

(** X10: the clamp changes nothing else: when the resolved strategy
    returns a rate, the decay function returns that very rate if it is at
    least [minimum_learning_rate], and [minimum_learning_rate] itself if
    it is below. *)
Theorem decay_fn_clamp_exact (decay_type : string) (decay_rate : Q)
    (decay_steps : Z) (staircase : bool) (start_decay_steps : Z)
    (minimum_learning_rate learning_rate : Q) (global_step : Z)
    (op : decay_op) (v : Q) :
  resolve_decay_op tf_train decay decay_type = Ok op ->
  op learning_rate
     (tf_maximum (wrap64 (global_step - start_decay_steps)) 0)
     decay_steps decay_rate staircase = Returned v ->
  ((minimum_learning_rate <= v)%Q ->
   decay_fn tf_train decay decay_type decay_rate decay_steps staircase
     start_decay_steps minimum_learning_rate learning_rate global_step = Ok v)
  /\ ((v < minimum_learning_rate)%Q ->
      decay_fn tf_train decay decay_type decay_rate decay_steps staircase
        start_decay_steps minimum_learning_rate learning_rate global_step
      = Ok minimum_learning_rate).
Proof.
  intros Hop Hv. rewrite (decay_fn_resolved _ _ _ _ _ _ _ _ _ _ _ Hop), Hv.
  unfold Qmax, GenericMinMax.gmax.
  split; intros Hcmp.
  - destruct (Qcompare v minimum_learning_rate) eqn:Hc; try reflexivity.
    apply Qlt_alt in Hc. apply Qlt_not_le in Hc. contradiction.
  - destruct (Qcompare v minimum_learning_rate) eqn:Hc; try reflexivity.
    + apply Qeq_alt in Hc. rewrite Hc in Hcmp.
      now apply Qlt_irrefl in Hcmp.
    + apply Qgt_alt in Hc.
      exfalso. apply (Qlt_irrefl v). now apply Qlt_trans with minimum_learning_rate.
Qed.

(** ** Training op *)

Lemma _build_train_op_with_decay_value (loss : Q) (p : params)
    (decay_type : string) (decay_rate : Q) (decay_steps : Z) (staircase : bool)
    (start_decay_steps : Z) (minimum_learning_rate learning_rate : Q)
    (optimizer : string) (clip_gradients : option Q) :
  p_decay_type p = Some (Some decay_type) ->
  p_decay_rate p = Some decay_rate ->
  p_decay_steps p = Some decay_steps ->
  p_staircase p = Some staircase ->
  p_start_decay_steps p = Some start_decay_steps ->
  p_minimum_learning_rate p = Some minimum_learning_rate ->
  p_learning_rate p = Some learning_rate ->
  p_optimizer p = Some optimizer ->
  p_clip_gradients p = Some clip_gradients ->
  _build_train_op tf_train decay loss p
  = Ok {| ol_loss := loss;
          ol_learning_rate := learning_rate;
          ol_optimizer := optimizer;
          ol_clip_gradients := clip_gradients;
          ol_learning_rate_decay_fn :=
            Some (decay_fn tf_train decay decay_type decay_rate decay_steps
                    staircase start_decay_steps minimum_learning_rate);
          ol_summaries := ["learning_rate"; "loss"; "global_gradient_norm"] |}.
Proof.
  intros Hdt Hdr Hds Hsc Hst Hmin Hlr Hopt Hclip.
  unfold _build_train_op.
  now rewrite Hdt, Hdr, Hds, Hsc, Hst, Hmin, Hlr, Hopt, Hclip.
Qed.

(** X11: with a decay type set and every key present, the rate the
    optimizer runs with at a step is the decay function of the configured
    parameters applied to [params["learning_rate"]], and whenever it is
    computed it is at least [params["minimum_learning_rate"]]. *)
Theorem _build_train_op_with_decay (loss : Q) (p : params)
    (decay_type : string) (decay_rate : Q) (decay_steps : Z) (staircase : bool)
    (start_decay_steps : Z) (minimum_learning_rate learning_rate : Q)
    (optimizer : string) (clip_gradients : option Q) :
  p_decay_type p = Some (Some decay_type) ->
  p_decay_rate p = Some decay_rate ->
  p_decay_steps p = Some decay_steps ->
  p_staircase p = Some staircase ->
  p_start_decay_steps p = Some start_decay_steps ->
  p_minimum_learning_rate p = Some minimum_learning_rate ->
  p_learning_rate p = Some learning_rate ->
  p_optimizer p = Some optimizer ->
  p_clip_gradients p = Some clip_gradients ->
  exists call,
    _build_train_op tf_train decay loss p = Ok call
    /\ forall global_step,
         optimizer_learning_rate call global_step
         = decay_fn tf_train decay decay_type decay_rate decay_steps staircase
             start_decay_steps minimum_learning_rate learning_rate global_step
         /\ forall rate,
              optimizer_learning_rate call global_step = Ok rate ->
              (minimum_learning_rate <= rate)%Q.
Proof.
  intros Hdt Hdr Hds Hsc Hst Hmin Hlr Hopt Hclip.
  eexists. split.
  { apply (_build_train_op_with_decay_value loss p decay_type); eassumption. }
  intros global_step. unfold optimizer_learning_rate. simpl.
  split; [reflexivity|]. intros rate.
  destruct (resolve_decay_op tf_train decay decay_type) as [op|e] eqn:Hop.
  - rewrite (decay_fn_resolved _ _ _ _ _ _ _ _ _ _ _ Hop).
    destruct (op _ _ _ _ _) as [v|msg]; [|discriminate].
    intros [= <-]. apply Q.le_max_r.
  - rewrite (decay_fn_unresolved _ _ _ _ _ _ _ _ _ _ _ Hop). discriminate.
Qed.

(** X12: [_build_train_op] reaches the call of [optimize_loss] exactly
    when the keys it reads are present: [decay_type], [learning_rate],
    [optimizer], [clip_gradients], and the five decay keys when
    [decay_type] is not null; before that call it raises nothing but
    [KeyError]. *)
Theorem _build_train_op_required_keys (loss : Q) (p : params) :
  ((exists call, _build_train_op tf_train decay loss p = Ok call)
   <-> required_keys_present p)
  /\ (forall e, _build_train_op tf_train decay loss p = Raise e ->
        exists key, e = KeyError key).
Proof.
  unfold required_keys_present, _build_train_op, learning_rate_decay_fn.
  destruct p as [dt dr ds sc st mn lr opt cg]. simpl.
  split.
  - split.
    + intros [call Hcall].
      destruct dt as [[name|]|]; simpl in Hcall; [| |discriminate].
      * destruct dr, ds, sc, st, mn; simpl in Hcall; try discriminate.
        destruct lr, opt, cg; simpl in Hcall; try discriminate.
        do 4 (split; [eauto|]). intros ? _.
        do 4 (split; [eauto|]). eauto.
      * destruct lr, opt, cg; simpl in Hcall; try discriminate.
        do 4 (split; [eauto|]). intros ? [=].
    + intros ([dt' ->] & [lr' ->] & [opt' ->] & [cg' ->] & Hdecay).
      destruct dt' as [name|]; simpl.
      * destruct (Hdecay name eq_refl)
          as ([? ->] & [? ->] & [? ->] & [? ->] & [? ->]).
        simpl. eexists; reflexivity.
      * eexists; reflexivity.
  - intros e.
    destruct dt as [[name|]|]; simpl.
    + destruct dr; simpl; [|intros [= <-]; eauto].
      destruct ds; simpl; [|intros [= <-]; eauto].
      destruct sc; simpl; [|intros [= <-]; eauto].
      destruct st; simpl; [|intros [= <-]; eauto].
      destruct mn; simpl; [|intros [= <-]; eauto].
      destruct lr; simpl; [|intros [= <-]; eauto].
      destruct opt; simpl; [|intros [= <-]; eauto].
      destruct cg; simpl; [discriminate|intros [= <-]; eauto].
    + destruct lr; simpl; [|intros [= <-]; eauto].
      destruct opt; simpl; [|intros [= <-]; eauto].
      destruct cg; simpl; [discriminate|intros [= <-]; eauto].
    + intros [= <-]; eauto.
Qed.

End DecayMore.

(** ** Input pipeline *)

Section PipelineFacts.

Context `{M : Model}.

(** X13: outside training the pipeline reads neither the clock, nor the
    shuffle buffer size, nor the bound on labels: two builds that differ
    only in these are the same. *)
Theorem _input_fn_impl_outside_training (now now' : Z) (mode : string)
    (batch_size buffer_size buffer_size' num_buckets : Z)
    (resources : gmap string string) (features_file : string)
    (labels_file : option string)
    (maximum_features_length maximum_labels_length : option Z)
    (maximum_labels_length' : option Z) :
  mode <> TRAIN ->
  _input_fn_impl now mode batch_size buffer_size num_buckets resources
    features_file labels_file maximum_features_length maximum_labels_length
  = _input_fn_impl now' mode batch_size buffer_size' num_buckets resources
      features_file labels_file maximum_features_length maximum_labels_length'.
Proof.
  intros Hmode. unfold _input_fn_impl.
  now rewrite (bool_decide_eq_false_2 _ Hmode).
Qed.

(** X14: in predict mode the pipeline is one padded batch over the
    features dataset, or over the zipped datasets when a labels file is
    given: no filter, shuffle, repeat or bucketing, whatever
    [num_buckets] and the bounds are. *)
Theorem _input_fn_impl_predict (now : Z)
    (batch_size buffer_size num_buckets : Z) (resources : gmap string string)
    (features_file : string) (labels_file : option string)
    (maximum_features_length maximum_labels_length : option Z) :
  exists base shapes,
    _input_fn_impl now PREDICT batch_size buffer_size num_buckets resources
      features_file labels_file maximum_features_length maximum_labels_length
    = Ok {| next_of := PaddedBatch batch_size shapes base;
            table_initializers := [PaddedBatch batch_size shapes base] |}
    /\ match labels_file with
       | None =>
           (base, shapes) = _build_features features_file resources
       | Some labels_file =>
           base = Zip (_build_features features_file resources).1
                      (_build_labels labels_file resources).1
           /\ shapes = ShapesPair (_build_features features_file resources).2
                                  (_build_labels labels_file resources).2
       end.
Proof.
  unfold _input_fn_impl.
  destruct (_build_features features_file resources) as [fd fs].
  destruct labels_file as [lf|].
  - destruct (_build_labels lf resources) as [ld ls]. simpl.
    do 2 eexists. split; [reflexivity|]. split; reflexivity.
  - simpl. do 2 eexists. split; reflexivity.
Qed.

Lemma _input_fn_impl_zipped (now : Z) (mode : string)
    (batch_size buffer_size num_buckets : Z) (resources : gmap string string)
    (features_file labels_file : string)
    (maximum_features_length maximum_labels_length : option Z) :
  let zipped :=
    Zip (_build_features features_file resources).1
        (_build_labels labels_file resources).1 in
  let shapes :=
    ShapesPair (_build_features features_file resources).2
               (_build_labels labels_file resources).2 in
  let examples :=
    if bool_decide (mode = TRAIN)
    then Repeat (Shuffle buffer_size now
           (Filter (fun features labels =>
                      _filter_example features labels
                        maximum_features_length maximum_labels_length)
                   zipped))
    else zipped in
  let batches :=
    if bool_decide (mode = PREDICT) || (num_buckets <=? 1)
    then PaddedBatch batch_size shapes examples
    else GroupByWindow (key_func maximum_features_length num_buckets)
           (reduce_func batch_size shapes) batch_size examples in
  _input_fn_impl now mode batch_size buffer_size num_buckets resources
    features_file (Some labels_file)
    maximum_features_length maximum_labels_length
  = Ok {| next_of := batches; table_initializers := [batches] |}.
Proof.
  unfold _input_fn_impl.
  destruct (_build_features features_file resources) as [fd fs].
  destruct (_build_labels labels_file resources) as [ld ls]. simpl.
  destruct (bool_decide (mode = TRAIN)); simpl;
    destruct (bool_decide (mode = PREDICT) || (num_buckets <=? 1)); reflexivity.
Qed.

(** X15: a pipeline that was built ends in [group_by_window] exactly
    when the mode is not predict and [num_buckets] is above 1. *)
Theorem _input_fn_impl_bucketed (now : Z) (mode : string)
    (batch_size buffer_size num_buckets : Z) (resources : gmap string string)
    (features_file : string) (labels_file : option string)
    (maximum_features_length maximum_labels_length : option Z)
    (pipeline : input_result) :
  _input_fn_impl now mode batch_size buffer_size num_buckets resources
    features_file labels_file maximum_features_length maximum_labels_length
  = Ok pipeline ->
  is_bucketed (next_of pipeline) = true
  <-> mode <> PREDICT /\ 1 < num_buckets.
Proof.
  destruct labels_file as [lf|].
  - rewrite _input_fn_impl_zipped. intros [= <-]. simpl.
    destruct (decide (mode = PREDICT)) as [Hm|Hm].
    + rewrite (bool_decide_eq_true_2 _ Hm). simpl. split; [discriminate|tauto].
    + rewrite (bool_decide_eq_false_2 _ Hm). simpl.
      destruct (Z.leb_spec num_buckets 1); simpl; split;
        try discriminate; try tauto; lia.
  - unfold _input_fn_impl.
    destruct (_build_features features_file resources) as [fd fs].
    destruct (bool_decide (mode = TRAIN)); simpl; [discriminate|].
    destruct (decide (mode = PREDICT)) as [Hm|Hm].
    + rewrite (bool_decide_eq_true_2 _ Hm). simpl. intros [= <-]. simpl.
      split; [discriminate|tauto].
    + rewrite (bool_decide_eq_false_2 _ Hm). simpl.
      destruct (Z.leb_spec num_buckets 1); simpl; [|discriminate].
      intros [= <-]. simpl. split; [discriminate|lia].
Qed.

(** X16: in training the stages come in this order: the zipped examples
    are filtered with the two bounds, then shuffled with the given buffer
    and the clock reading as seed, then repeated, and batching is applied
    last, by windows of [batch_size] when bucketing. *)
Theorem _input_fn_impl_training_order (now : Z)
    (batch_size buffer_size num_buckets : Z) (resources : gmap string string)
    (features_file labels_file : string)
    (maximum_features_length maximum_labels_length : option Z) :
  exists predicate zipped pipeline,
    _input_fn_impl now TRAIN batch_size buffer_size num_buckets resources
      features_file (Some labels_file)
      maximum_features_length maximum_labels_length = Ok pipeline
    /\ zipped = Zip (_build_features features_file resources).1
                    (_build_labels labels_file resources).1
    /\ (forall features labels,
          predicate features labels
          = _filter_example features labels
              maximum_features_length maximum_labels_length)
    /\ let examples :=
         Repeat (Shuffle buffer_size now (Filter predicate zipped)) in
       (num_buckets <= 1 ->
        exists shapes, next_of pipeline = PaddedBatch batch_size shapes examples)
       /\ (1 < num_buckets ->
           exists key reduce,
             next_of pipeline = GroupByWindow key reduce batch_size examples
             /\ forall features labels,
                  key features labels
                  = key_func maximum_features_length num_buckets features labels).
Proof.
  do 3 eexists. split; [apply _input_fn_impl_zipped|].
  split; [reflexivity|]. split; [reflexivity|]. simpl.
  destruct (Z.leb_spec num_buckets 1); split; intros Hn; try lia.
  - eexists. reflexivity.
  - do 2 eexists. split; reflexivity.
Qed.

(** X17: the key function that a built pipeline groups by never raises
    [ZeroDivisionError]: bucketing is set up only with [num_buckets]
    above 1. *)
Theorem _input_fn_impl_key_func_divides (now : Z) (mode : string)
    (batch_size buffer_size num_buckets : Z) (resources : gmap string string)
    (features_file : string) (labels_file : option string)
    (maximum_features_length maximum_labels_length : option Z)
    (pipeline : input_result) (key : gmap string Z -> pyobj Z -> except Z)
    (reduce : Z -> window_op) (window_size : Z) (examples : dataset) :
  _input_fn_impl now mode batch_size buffer_size num_buckets resources
    features_file labels_file maximum_features_length maximum_labels_length
  = Ok pipeline ->
  next_of pipeline = GroupByWindow key reduce window_size examples ->
  window_size = batch_size
  /\ forall features labels, key features labels <> Raise ZeroDivisionError.
Proof.
  intros Hbuilt Hnext.
  assert (Hbucketed : is_bucketed (next_of pipeline) = true)
    by now rewrite Hnext.
  assert (Hn : 1 < num_buckets).
  { destruct labels_file as [lf|].
    - rewrite _input_fn_impl_zipped in Hbuilt. injection Hbuilt as <-.
      simpl in Hbucketed.
      destruct (bool_decide (mode = PREDICT)); simpl in Hbucketed;
        [discriminate|].
      destruct (Z.leb_spec num_buckets 1); [discriminate|lia].
    - unfold _input_fn_impl in Hbuilt.
      destruct (_build_features features_file resources) as [fd fs].
      destruct (bool_decide (mode = TRAIN)); simpl in Hbuilt; [discriminate|].
      destruct (bool_decide (mode = PREDICT) || (num_buckets <=? 1));
        simpl in Hbuilt; [|discriminate].
      injection Hbuilt as <-. discriminate. }
  assert (Hkey : window_size = batch_size
                 /\ key = key_func maximum_features_length num_buckets).
  { destruct labels_file as [lf|].
    - rewrite _input_fn_impl_zipped in Hbuilt. injection Hbuilt as <-.
      simpl in Hnext.
      destruct (bool_decide (mode = PREDICT) || (num_buckets <=? 1));
        [discriminate|].
      injection Hnext as <- _ <- _. split; reflexivity.
    - unfold _input_fn_impl in Hbuilt.
      destruct (_build_features features_file resources) as [fd fs].
      destruct (bool_decide (mode = TRAIN)); simpl in Hbuilt; [discriminate|].
      destruct (bool_decide (mode = PREDICT) || (num_buckets <=? 1));
        simpl in Hbuilt; [|discriminate].
      injection Hbuilt as <-. discriminate. }
  destruct Hkey as [-> ->]. split; [reflexivity|].
  intros features labels. unfold key_func.
  rewrite (bucket_width_value _ _ Hn). simpl.
  unfold getitem, tf_floordiv, tf_minimum.
  destruct (features !! "length"); simpl; [|discriminate].
  destruct (_ =? 0); discriminate.
Qed.

End PipelineFacts.

(** ** The further properties at concrete inputs *)

(** A bound of 95 with 10 buckets. *)
Lemma bucket_width_least_cover_witness :
  exists width,
    bucket_width (Some 95) 10 = Ok width
    /\ 1 <= width /\ 95 <= 10 * width /\ 10 * (width - 1) < 95.
Proof. apply (bucket_width_least_cover 95 10); lia. Defined.

(** An example with ids and no length. *)
Lemma key_func_missing_length_witness :
  key_func (Some 100) 10 {[ "ids" := 3 ]} PyNone = Raise (KeyError "length").
Proof.
  apply (key_func_missing_length (Some 100) 10 {[ "ids" := 3 ]} PyNone);
    [lia | reflexivity].
Defined.

(** Length 95 under a bound of 100. *)
Lemma key_func_bucket_range_witness :
  exists bucket_id,
    key_func (Some 100) 10 {[ "length" := 95 ]} PyNone = Ok bucket_id
    /\ 0 <= bucket_id <= 10
    /\ forall m, Some 100 = Some m -> 95 < m -> bucket_id < 10.
Proof.
  apply (key_func_bucket_range (Some 100) 10 {[ "length" := 95 ]} PyNone 95);
    [lia | intros m [= <-]; lia | reflexivity | lia].
Defined.

(** Lengths 12 and 95 with the default width. *)
Lemma key_func_monotone_witness :
  exists bucket_id bucket_id',
    key_func None 10 {[ "length" := 12 ]} PyNone = Ok bucket_id
    /\ key_func None 10 {[ "length" := 95 ]} (PyTensor 4) = Ok bucket_id'
    /\ bucket_id <= bucket_id'.
Proof.
  apply (key_func_monotone None 10 {[ "length" := 12 ]} {[ "length" := 95 ]}
           PyNone (PyTensor 4) 12 95);
    [lia | intros m [=] | reflexivity | reflexivity | lia].
Defined.

(** An example at the bound itself, accepted by the filter. *)
Lemma key_func_after_filter_witness :
  exists width,
    bucket_width (Some 100) 10 = Ok width
    /\ key_func (Some 100) 10 {[ "length" := 100 ]} PyNone = Ok (100 / width)
    /\ 0 <= 100 / width <= 10.
Proof.
  apply (key_func_after_filter 100 10 None {[ "length" := 100 ]} PyNone 100);
    [lia | reflexivity | reflexivity].
Defined.

(** A bound raised from 5 to 10, the other removed. *)
Lemma _filter_example_looser_bounds_witness :
  _filter_example {[ "length" := 5 ]} (PyDict {[ "length" := 7 ]})
    (Some 10) None = true.
Proof.
  apply (_filter_example_looser_bounds {[ "length" := 5 ]}
           (PyDict {[ "length" := 7 ]}) (Some 5) (Some 8) (Some 10) None);
    [simpl; lia | exact I | reflexivity].
Defined.

(** Empty labels under generous bounds. *)
Lemma _filter_example_drops_empty_witness :
  _filter_example {[ "length" := 5 ]} (PyDict {[ "length" := 0 ]})
    (Some 10) (Some 10) = false.
Proof.
  apply (_filter_example_drops_empty {[ "length" := 5 ]}
           (PyDict {[ "length" := 0 ]}) (Some 10) (Some 10) 0);
    [lia | right; reflexivity].
Defined.

(** The second node of a batch with features lengths 3 and 5. *)
Lemma _count_words_well_formed_witness :
  in_int64 8
  /\ exists j,
       1%nat = S j
       /\ _count_words {[ "length" := [3; 5] ]} PyNone !! j
          = Some (VariableNode "words_per_sec/features_init" 0 false).
Proof.
  apply (proj2 (_count_words_well_formed {[ "length" := [3; 5] ]} PyNone)
           1%nat "words_per_sec/features" "words_per_sec/features_init" 8).
  reflexivity.
Defined.

(** Step 1400 of the example schedule: 1/16 is above the minimum. *)
Lemma decay_fn_clamp_exact_witness :
  decay_fn example_tf_train example_decay "exponential_decay"
    (1 # 2) 100 true 1000 (1 # 100) 1 1400 = Ok (1 # 16)%Q.
Proof.
  apply (proj1 (decay_fn_clamp_exact example_tf_train example_decay
                  "exponential_decay" (1 # 2) 100 true 1000 (1 # 100) 1 1400
                  staircase_exponential_decay (1 # 16) eq_refl eq_refl)).
  unfold Qle. simpl. lia.
Defined.

(** [example_decay_params] at step 1400. *)
Lemma _build_train_op_with_decay_witness :
  exists call,
    _build_train_op example_tf_train example_decay 3 example_decay_params
    = Ok call
    /\ forall global_step,
         optimizer_learning_rate call global_step
         = decay_fn example_tf_train example_decay "exponential_decay"
             (1 # 2) 100 true 1000 (1 # 100) 1 global_step
         /\ forall rate,
              optimizer_learning_rate call global_step = Ok rate ->
              (1 # 100 <= rate)%Q.
Proof.
  apply (_build_train_op_with_decay example_tf_train example_decay 3
           example_decay_params "exponential_decay" (1 # 2) 100 true 1000
           (1 # 100) 1 "Adam" None);
    reflexivity.
Defined.

(** [example_params] has the four keys a null decay type needs. *)
Lemma _build_train_op_required_keys_witness :
  exists call,
    _build_train_op example_tf_train example_decay 3 example_params = Ok call.
Proof.
  apply (proj2 (proj1 (_build_train_op_required_keys example_tf_train
                         example_decay 3 example_params))).
  unfold required_keys_present. simpl.
  do 4 (split; [eexists; reflexivity|]). intros decay_type Hnull.
  discriminate Hnull.
Defined.

(** Two evaluation builds at different times and buffer sizes. *)
Lemma _input_fn_impl_outside_training_witness :
  _input_fn_impl 17 EVAL 32 1000 5 ∅ "src.txt" (Some "tgt.txt") (Some 50) (Some 60)
  = _input_fn_impl 99 EVAL 32 10 5 ∅ "src.txt" (Some "tgt.txt") (Some 50) None.
Proof.
  apply (_input_fn_impl_outside_training 17 99 EVAL 32 1000 10 5 ∅ "src.txt"
           (Some "tgt.txt") (Some 50) (Some 60) None).
  discriminate.
Defined.

(** Evaluation with 5 buckets is bucketed. *)
Lemma _input_fn_impl_bucketed_witness :
  exists pipeline,
    _input_fn_impl 17 EVAL 32 1000 5 ∅ "src.txt" (Some "tgt.txt") (Some 50) None
    = Ok pipeline
    /\ is_bucketed (next_of pipeline) = true.
Proof.
  eexists. split; [reflexivity|].
  eapply (fun pipeline Hbuilt =>
            proj2 (_input_fn_impl_bucketed 17 EVAL 32 1000 5 ∅ "src.txt"
                     (Some "tgt.txt") (Some 50) None pipeline Hbuilt));
    [reflexivity | split; [discriminate | lia]].
Defined.

(** Training with 5 buckets: the grouping is the last stage. *)
Lemma _input_fn_impl_training_order_witness :
  exists predicate key reduce pipeline,
    _input_fn_impl 17 TRAIN 32 1000 5 ∅ "src.txt" (Some "tgt.txt") (Some 50) None
    = Ok pipeline
    /\ next_of pipeline
       = GroupByWindow key reduce 32
           (Repeat (Shuffle 1000 17
              (Filter predicate
                 (Zip (FromFile "src.txt" ∅) (FromFile "tgt.txt" ∅))))).
Proof.
  destruct (_input_fn_impl_training_order 17 32 1000 5 ∅ "src.txt" "tgt.txt"
              (Some 50) None)
    as (predicate & zipped & pipeline & Hbuilt & -> & _ & _ & Hgroup).
  destruct (Hgroup ltac:(lia)) as (key & reduce & Hnext & _).
  exists predicate, key, reduce, pipeline. split; [exact Hbuilt | exact Hnext].
Defined.

(** The key function of a training pipeline with 5 buckets. *)
Lemma _input_fn_impl_key_func_divides_witness :
  32 = 32
  /\ forall features labels,
       key_func (Some 50) 5 features labels <> Raise ZeroDivisionError.
Proof.
  eapply (_input_fn_impl_key_func_divides 17 TRAIN 32 1000 5 ∅ "src.txt"
            (Some "tgt.txt") (Some 50) None _ (key_func (Some 50) 5));
    reflexivity.
Defined.
